(** * Withdrawal status resolution and output waiting (viem, OP Stack)

    A shallow embedding of
    - [walk] of [src/errors/base.ts] (the cause-chain traversal of [BaseError]),
    - [hashWithdrawal], [getWithdrawalStatus], [getWithdrawalStatusV3] and
      [getWithdrawalStatusV2] (the four-query status resolver),
    - the two-query [getWithdrawalStatus] variant,
    - [waitForNextL2Output] and its polling tick,
    followed by the properties of the specification that concern them. *)

From Stdlib Require Import String List ZArith Bool Lia.
From Stdlib Require Import Init.Byte.
From coqutil Require Import Byte Word.LittleEndianList.
Import ListNotations.

Local Open Scope string_scope.
Local Open Scope list_scope.
Local Open Scope Z_scope.

(* ===================================================================== *)
(** * Part I: definitions *)
(* ===================================================================== *)

(* --------------------------------------------------------------------- *)
(** ** [walk]: traversal of an error's cause chain *)

Module BaseError.

(** [walk] receives a value of type [unknown].  What it observes of a
    value is whether it is a (truthy) object, and whether that object has
    a ['cause'] property.  Everything that is not an object -- [undefined],
    [null], strings, numbers -- is a [Primitive]. *)
Inductive Primitive :=
| JsUndefined
| JsNull
| JsOther (description : string).

Inductive JsValue :=
| Prim (p : Primitive)
| Obj (label : string)                           (* an object, ['cause' in err] is false *)
| ObjWithCause (label : string) (cause : JsValue). (* an object with [err.cause = cause] *)

Definition null : JsValue := Prim JsNull.

(** [fn?.(err)]: [undefined] (falsy) when no predicate is given. *)
Definition callOptional (fn : option (JsValue -> bool)) (err : JsValue) : bool :=
  match fn with
  | Some f => f err
  | None => false
  end.

(** function walk(err, fn) *)
Fixpoint walk (err : JsValue) (fn : option (JsValue -> bool)) : JsValue :=
  if callOptional fn err then err
  else
    match err with
    | ObjWithCause _ cause => walk cause fn
    | _ => match fn with
           | Some _ => null
           | None => err
           end
    end.

(** The values [walk] visits: the error, its cause, the cause's cause ...
    up to and including the first value that has no ['cause'] property. *)
Fixpoint causeChain (err : JsValue) : list JsValue :=
  err :: match err with
         | ObjWithCause _ cause => causeChain cause
         | _ => []
         end.

Definition hasCause (err : JsValue) : bool :=
  match err with
  | ObjWithCause _ _ => true
  | _ => false
  end.

(** The result the claim about [walk] describes: without a predicate the
    innermost value of the chain, with a predicate the outermost value
    that satisfies it, or [null]. *)
Definition walkSpec (err : JsValue) (fn : option (JsValue -> bool)) : JsValue :=
  match fn with
  | None => last (causeChain err) err
  | Some f => match find f (causeChain err) with
              | Some e => e
              | None => null
              end
  end.

End BaseError.

(* --------------------------------------------------------------------- *)
(** ** [BaseError]: the constructor *)

Module BaseErrorClass.

(** An error value as the constructor reads its [cause]: a [BaseError], with
    the fields the constructor assigns, or another [Error], of which only
    the message is read. *)
#[warnings="-register-all"]
Inductive ErrorObject :=
| NativeError (message : string)
| BaseErrorObject
    (shortMessage : string)
    (details : option string)
    (docsPath : option string)
    (metaMessages : option (list string))
    (message : string)
    (cause : option ErrorObject).

(** BaseErrorParameters; a field that is left out is [None]. *)
Record BaseErrorParameters := {
  argDocsPath : option string;
  argDocsSlug : option string;
  argMetaMessages : option (list string);
  argCause : option ErrorObject;
  argDetails : option string
}.

Definition errorDetails (e : ErrorObject) : option string :=
  match e with
  | NativeError _ => None
  | BaseErrorObject _ details _ _ _ _ => details
  end.

Definition errorDocsPath (e : ErrorObject) : option string :=
  match e with
  | NativeError _ => None
  | BaseErrorObject _ _ docsPath _ _ _ => docsPath
  end.

Definition errorMessage (e : ErrorObject) : string :=
  match e with
  | NativeError message => message
  | BaseErrorObject _ _ _ _ message _ => message
  end.

Definition errorCauseOf (e : ErrorObject) : option ErrorObject :=
  match e with
  | NativeError _ => None
  | BaseErrorObject _ _ _ _ _ cause => cause
  end.

(** [e instanceof BaseError] *)
Definition isBaseError (e : ErrorObject) : bool :=
  match e with
  | NativeError _ => false
  | BaseErrorObject _ _ _ _ _ _ => true
  end.

(** Truthiness of a string that may be [undefined]: the empty string and
    [undefined] are falsy. *)
Definition truthy (s : option string) : bool :=
  match s with
  | Some s => negb (String.eqb s "")
  | None => false
  end.

(** The line separator of [join('\n')]. *)
Definition newline : string := String (Ascii.ascii_of_nat 10) EmptyString.

(** The lines the constructor joins into [this.message]. *)
Definition messageLines (version shortMessage : string)
    (args : BaseErrorParameters) (details docsPath : option string)
  : list string :=
  ([if String.eqb shortMessage "" then "An error occurred." else shortMessage;
    ""]
   ++ match argMetaMessages args with
      | Some metaMessages => metaMessages ++ [""]
      | None => []
      end
   ++ match docsPath with
      | Some path =>
          if truthy docsPath
          then ["Docs: https://viem.sh" ++ path
                ++ match argDocsSlug args with
                   | Some slug =>
                       if truthy (argDocsSlug args) then "#" ++ slug else ""
                   | None => ""
                   end]%string
          else []
      | None => []
      end
   ++ match details with
      | Some d => if truthy details then ["Details: " ++ d]%string else []
      | None => []
      end
   ++ ["Version: " ++ version]%string)%list.

(** [new BaseError(shortMessage, args)]; [version] is what [getVersion()]
    returns. *)
Definition construct (version shortMessage : string)
    (args : BaseErrorParameters) : ErrorObject :=
  let details :=
    match argCause args with
    | Some (BaseErrorObject _ causeDetails _ _ _ _) => causeDetails
    | Some (NativeError causeMessage) =>
        if negb (String.eqb causeMessage "") then Some causeMessage
        else argDetails args
    | None => argDetails args
    end in
  let docsPath :=
    match argCause args with
    | Some (BaseErrorObject _ _ causeDocsPath _ _ _) =>
        if truthy causeDocsPath then causeDocsPath else argDocsPath args
    | _ => argDocsPath args
    end in
  BaseErrorObject shortMessage details docsPath (argMetaMessages args)
    (String.concat newline (messageLines version shortMessage args details docsPath))
    (argCause args).

(** [args] with [cause] set. *)
Definition withCause (args : BaseErrorParameters) (cause : ErrorObject)
  : BaseErrorParameters :=
  {| argDocsPath := argDocsPath args; argDocsSlug := argDocsSlug args;
     argMetaMessages := argMetaMessages args; argCause := Some cause;
     argDetails := argDetails args |}.

(** An error wrapped again and again: each layer, innermost first, is a
    [new BaseError(shortMessage, { ...args, cause })] around what the layers
    before it built. *)
Fixpoint wrapAll (version : string) (e : ErrorObject)
    (layers : list (string * BaseErrorParameters)) : ErrorObject :=
  match layers with
  | [] => e
  | (shortMessage, args) :: outer =>
      wrapAll version (construct version shortMessage (withCause args e)) outer
  end.

(** Whether character [c] occurs in [s]. *)
Fixpoint occursIn (c : Ascii.ascii) (s : string) : bool :=
  match s with
  | EmptyString => false
  | String a rest => Ascii.eqb a c || occursIn c rest
  end.

End BaseErrorClass.

(* --------------------------------------------------------------------- *)
(** ** Data model *)

(** A [Hex] value ([`0x...`]), as the bytes it denotes.  An [Address] is a
    [Hex] of twenty bytes. *)
Definition Hex := list byte.
Definition Address := Hex.

Record Withdrawal := {
  nonce : Z;
  sender : Address;
  target : Address;
  value : Z;
  gasLimit : Z;
  data : Hex;
  withdrawalHash : Hex
}.

Record TransactionReceipt := {
  transactionHash : Hex;
  blockNumber : Z;
  logs : list Hex
}.

(** GetWithdrawalStatusReturnType *)
Inductive GetWithdrawalStatusReturnType :=
| WaitingToProve
| ReadyToProve
| WaitingToFinalize
| ReadyToFinalize
| Finalized.

Record Version := { major : Z; minor : Z; patch : Z }.

Record L2Output := {
  outputIndex : Z;
  outputRoot : Hex;
  outputTimestamp : Z;
  outputL2BlockNumber : Z
}.

(** One entry of [findLatestGames]. *)
Record Game := {
  gameIndex : Z;
  gameMetadata : Hex;
  gameTimestamp : Z;
  rootClaim : Hex;
  extraData : Hex
}.

(** *** Errors *)

(** What the code reads of [error.cause]. *)
Record ErrorCause := {
  causeMessage : string;                   (* cause.message *)
  isContractFunctionRevertedError : bool;  (* cause instanceof ContractFunctionRevertedError *)
  revertArg0 : option string               (* cause.data?.args?.[0], when it is a string *)
}.

Inductive JsError :=
| ReceiptContainsNoWithdrawalsError (hash : Hex)
| PlainError (message : string)                     (* new Error(message) *)
| JsTypeError                                       (* a property read on [undefined] *)
| ActionError (name : string) (cause : option ErrorCause).
    (* an error thrown by a client action *)

Definition errorName (e : JsError) : string :=
  match e with
  | ReceiptContainsNoWithdrawalsError _ => "ReceiptContainsNoWithdrawalsError"
  | PlainError _ => "Error"
  | JsTypeError => "TypeError"
  | ActionError name _ => name
  end.

Definition errorCause (e : JsError) : option ErrorCause :=
  match e with
  | ActionError _ cause => cause
  | _ => None
  end.

(** [error.cause instanceof ContractFunctionRevertedError]; false when there
    is no cause. *)
Definition causeIsRevert (e : JsError) : bool :=
  match errorCause e with
  | Some c => isContractFunctionRevertedError c
  | None => false
  end.

(** [error.cause?.data?.args?.[0]] *)
Definition causeArg0 (e : JsError) : option string :=
  match errorCause e with
  | Some c => revertArg0 c
  | None => None
  end.

Definition Result (A : Type) : Type := (JsError + A)%type.

(** *** ABI values *)

Inductive AbiType := uint256 | address | bytes.

Record AbiParameter := { paramName : string; paramType : AbiType }.

Inductive AbiValue :=
| VUint (n : Z)
| VAddress (a : Address)
| VBytes (b : Hex).

(** *** External collaborators

    Functions the modules import and do not define: hashing, ABI encoding
    and decoding, and the extraction of withdrawals from a receipt.  They
    are taken as they behave on well-typed arguments; of these only
    decoding is given a failure outcome, which the waiter handles. *)
Class Collaborators := {
  keccak256 : Hex -> Hex;
  encodeAbiParameters : list AbiParameter -> list AbiValue -> Hex;
  decodeAbiParameters : list AbiType -> Hex -> Result (list AbiValue);
  getWithdrawals : TransactionReceipt -> list Withdrawal
}.

(** *** The chain as a client sees it

    The outcome of every query a client can make, at one moment.
    [portalAbi] and [portal2Abi] name the ABI a portal read is made with. *)
Inductive PortalAbi := portalAbi | portal2Abi.

Record Client := {
  getPortalVersion : Result Version;
  getL2Output : Z -> Result L2Output;
  provenWithdrawals : PortalAbi -> Hex -> Result (Hex * Z);
      (* [[_, proveTimestamp]] *)
  finalizedWithdrawals : PortalAbi -> Hex -> Result bool;
  checkWithdrawal : Hex -> Result unit;
  getTimeToFinalize : Hex -> Result Z;             (* [{ seconds }] *)
  getTimeToNextL2Output : Result Z;                (* [{ seconds }] *)
  gameCount : Result Z;
  respectedGameType : Result Z;
  findLatestGames : Z -> Z -> Z -> Result (list Game)
}.

(** The queries, as they are issued. *)
Inductive Query :=
| QPortalVersion
| QL2Output (l2BlockNumber : Z)
| QProvenWithdrawals (abi : PortalAbi) (hash : Hex)
| QFinalizedWithdrawals (abi : PortalAbi) (hash : Hex)
| QCheckWithdrawal (hash : Hex)
| QTimeToFinalize (hash : Hex)
| QTimeToNextL2Output
| QGameCount
| QRespectedGameType
| QFindLatestGames (gameType start count : Z).

(* --------------------------------------------------------------------- *)
(** ** Asynchronous computations

    An [async] function, run against a client: it appends the queries it
    issues to a log and ends with a value or a thrown error.  The log is
    kept when the function throws. *)

Definition Async (A : Type) : Type := list Query -> list Query * Result A.

Definition ret {A} (a : A) : Async A := fun log => (log, inr a).

Definition throw {A} (e : JsError) : Async A := fun log => (log, inl e).

(** [await m], then [k]: a rejection of [m] is thrown on. *)
Definition bind {A B} (m : Async A) (k : A -> Async B) : Async B :=
  fun log =>
    let (log', r) := m log in
    match r with
    | inl e => (log', inl e)
    | inr a => k a log'
    end.

(** Issue query [q], whose outcome on this client is [outcome]. *)
Definition query {A} (q : Query) (outcome : Result A) : Async A :=
  fun log => (log ++ [q], outcome).

(** One element of [Promise.allSettled]: the query is issued and its
    outcome, fulfilled or rejected, is handed over as a value. *)
Definition settle {A} (m : Async A) : Async (Result A) :=
  fun log => let (log', r) := m log in (log', inr r).

(** [m.then(f)] *)
Definition andThen {A B} (m : Async A) (f : A -> B) : Async B :=
  fun log =>
    let (log', r) := m log in
    (log', match r with inl e => inl e | inr a => inr (f a) end).

(** [m.catch(handler)], for a handler that returns or throws. *)
Definition catch {A} (m : Async A) (handler : JsError -> Result A) : Async A :=
  fun log =>
    let (log', r) := m log in
    (log', match r with inl e => handler e | inr a => inr a end).

Definition run {A} (m : Async A) : list Query * Result A := m [].

Declare Scope async_scope.
Delimit Scope async_scope with async.
Notation "x <- m ;; k" := (bind m (fun x => k))
  (at level 61, m at next level, right associativity) : async_scope.

(* --------------------------------------------------------------------- *)
(** ** [hashWithdrawal] and the revert-message table

    Both versions of the status resolver declare them with the same text. *)

(** Portal.checkWithdrawal error messages *)
Definition finalizedWithdrawalMessages : list string := [
  "OptimismPortal: dispute game has been blacklisted";
  "OptimismPortal: withdrawal has not been proven yet";
  "OptimismPortal: withdrawal timestamp less than dispute game creation timestamp";
  "OptimismPortal: proven withdrawal has not matured yet";
  "OptimismPortal: output proposal has not been finalized yet";
  "OptimismPortal: invalid game type";
  "OptimismPortal: dispute game created before respected game type was updated";
  "OptimismPortal: output proposal in air-gap";
  "OptimismPortal: withdrawal has already been finalized"
].

(** [messages.includes(m)] *)
Definition includes (messages : list string) (m : string) : bool :=
  existsb (String.eqb m) messages.

(** [messages.includes(m)] for an [m] that may be [undefined] *)
Definition includesOptional (messages : list string) (m : option string) : bool :=
  match m with
  | Some m => includes messages m
  | None => false
  end.

Definition withdrawalAbiParameters : list AbiParameter := [
  {| paramName := "nonce"; paramType := uint256 |};
  {| paramName := "sender"; paramType := address |};
  {| paramName := "target"; paramType := address |};
  {| paramName := "value"; paramType := uint256 |};
  {| paramName := "gasLimit"; paramType := uint256 |};
  {| paramName := "data"; paramType := bytes |}
].

(** The six values [hashWithdrawal] destructures from its argument. *)
Definition withdrawalAbiValues (w : Withdrawal) : list AbiValue :=
  [VUint (nonce w); VAddress (sender w); VAddress (target w);
   VUint (value w); VUint (gasLimit w); VBytes (data w)].

Definition hashWithdrawal `{Collaborators} (w : Withdrawal) : Hex :=
  keccak256 (encodeAbiParameters withdrawalAbiParameters (withdrawalAbiValues w)).

Definition revertNotProposed : string :=
  "L2OutputOracle: cannot get output for a block that has not been proposed".

(** [error.cause instanceof ContractFunctionRevertedError &&
     error.cause.data?.args?.[0] === 'L2OutputOracle: cannot get output ...'] *)
Definition outputNotProposed (error : JsError) : bool :=
  causeIsRevert error &&
  match causeArg0 error with
  | Some reason => String.eqb reason revertNotProposed
  | None => false
  end.

Record GetWithdrawalStatusParameters := {
  receipt : TransactionReceipt;
  portalVersion : option Z
      (* the portal address is taken as resolved: resolving it reads no
         contract *)
}.

(** A [PromiseSettledResult] is an object, and every object is truthy. *)
Definition settledResultIsTruthy {A} (r : Result A) : bool := true.

(* --------------------------------------------------------------------- *)
(** ** The status resolver with the V2 and V3 paths *)

Module GetWithdrawalStatus.
Section WithCollaborators.
Context `{Collaborators}.
Local Open Scope async_scope.

(** What the fourth promise of the V3 path is fulfilled with: [true], or
    the error that [catch] returned. *)
Inductive ReadyToFinalizeValue :=
| IsTrue
| Caught (e : JsError).

(** The handler of [.catch((e) => ...)] on the [checkWithdrawal] read. *)
Definition checkWithdrawalCatch (e : JsError) : Result ReadyToFinalizeValue :=
  if negb (String.eqb (errorName e) "ContractFunctionExecutionError") then inl e
  else
    match errorCause e with
    | None => inl JsTypeError  (* [e.cause.message] with no cause *)
    | Some cause =>
        if negb (includes finalizedWithdrawalMessages (causeMessage cause))
        then inl e
        else inr (Caught e)
    end.

Definition getWithdrawalStatusV3 (client : Client)
    (parameters : GetWithdrawalStatusParameters)
  : Async GetWithdrawalStatusReturnType :=
  let receipt := receipt parameters in
  match getWithdrawals receipt with
  | [] => throw (ReceiptContainsNoWithdrawalsError (transactionHash receipt))
  | withdrawal :: _ =>
      outputResult <-
        settle (query (QL2Output (blockNumber receipt))
                      (getL2Output client (blockNumber receipt))) ;;
      proveResult <-
        settle (query (QProvenWithdrawals portal2Abi (withdrawalHash withdrawal))
                      (provenWithdrawals client portal2Abi (withdrawalHash withdrawal))) ;;
      finalizedResult <-
        settle (query (QFinalizedWithdrawals portal2Abi (withdrawalHash withdrawal))
                      (finalizedWithdrawals client portal2Abi (withdrawalHash withdrawal))) ;;
      readyToFinalize <-
        settle (catch
                  (andThen
                     (query (QCheckWithdrawal (hashWithdrawal withdrawal))
                            (checkWithdrawal client (hashWithdrawal withdrawal)))
                     (fun _ => IsTrue))
                  checkWithdrawalCatch) ;;
      match outputResult with
      | inl error =>
          if outputNotProposed error then ret WaitingToProve else throw error
      | inr _ =>
      match proveResult with
      | inl reason => throw reason
      | inr (_, proveTimestamp) =>
      match finalizedResult with
      | inl reason => throw reason
      | inr finalized =>
      match readyToFinalize with
      | inl reason => throw reason
      | inr _ =>
          if proveTimestamp =? 0 then ret ReadyToProve
          else if (finalized : bool) then ret Finalized
          else ret (if settledResultIsTruthy readyToFinalize
                    then ReadyToFinalize
                    else WaitingToFinalize)
      end end end end
  end.

Definition getWithdrawalStatusV2 (client : Client)
    (parameters : GetWithdrawalStatusParameters)
  : Async GetWithdrawalStatusReturnType :=
  let receipt := receipt parameters in
  match getWithdrawals receipt with
  | [] => throw (ReceiptContainsNoWithdrawalsError (transactionHash receipt))
  | withdrawal :: _ =>
      outputResult <-
        settle (query (QL2Output (blockNumber receipt))
                      (getL2Output client (blockNumber receipt))) ;;
      proveResult <-
        settle (query (QProvenWithdrawals portalAbi (withdrawalHash withdrawal))
                      (provenWithdrawals client portalAbi (withdrawalHash withdrawal))) ;;
      finalizedResult <-
        settle (query (QFinalizedWithdrawals portalAbi (withdrawalHash withdrawal))
                      (finalizedWithdrawals client portalAbi (withdrawalHash withdrawal))) ;;
      timeToFinalizeResult <-
        settle (query (QTimeToFinalize (withdrawalHash withdrawal))
                      (getTimeToFinalize client (withdrawalHash withdrawal))) ;;
      match outputResult with
      | inl error =>
          if outputNotProposed error then ret WaitingToProve else throw error
      | inr _ =>
      match proveResult with
      | inl reason => throw reason
      | inr (_, proveTimestamp) =>
      match finalizedResult with
      | inl reason => throw reason
      | inr finalized =>
      match timeToFinalizeResult with
      | inl reason => throw reason
      | inr seconds =>
          if proveTimestamp =? 0 then ret ReadyToProve
          else if (finalized : bool) then ret Finalized
          else ret (if seconds >? 0 then WaitingToFinalize else ReadyToFinalize)
      end end end end
  end.

Definition getWithdrawalStatus (client : Client)
    (parameters : GetWithdrawalStatusParameters)
  : Async GetWithdrawalStatusReturnType :=
  portalVersion <-
    match portalVersion parameters with
    | Some version => ret version
    | None => andThen (query QPortalVersion (getPortalVersion client)) major
    end ;;
  if portalVersion =? 2 then getWithdrawalStatusV2 client parameters
  else getWithdrawalStatusV3 client parameters.

End WithCollaborators.
End GetWithdrawalStatus.

(* --------------------------------------------------------------------- *)
(** ** The status resolver with two queries (src/unnamed/part_000) *)

Module Part000.
Section WithCollaborators.
Context `{Collaborators}.
Local Open Scope async_scope.

(** [switch (revertMessage) { ... }] *)
Definition switchRevertMessage (revertMessage : option string)
  : Result GetWithdrawalStatusReturnType :=
  match revertMessage with
  | None =>
      inl (PlainError "Unknown revert message undefined from checkWithdrawal")
  | Some m =>
      (if m =? "OptimismPortal: withdrawal has not been proven yet"
      then inr ReadyToProve
      else if m =? "OptimismPortal: withdrawal has already been finalized"
      then inr Finalized
      else if (m =? "OptimismPortal: output proposal has not been finalized yet")
           || (m =? "OptimismPortal: proven withdrawal has not matured yet")
           || (m =? "OptimismPortal: invalid game type")
           || (m =? "OptimismPortal: output proposal in air-gap")
           || (m =? "OptimismPortal: dispute game has been blacklisted")
           || (m =? "OptimismPortal: withdrawal timestamp less than dispute game creation timestamp")
           || (m =? "OptimismPortal: dispute game created before respected game type was updated")
      then inr WaitingToFinalize
      else inl (PlainError ("Unknown revert message " ++ m ++ " from checkWithdrawal"))
      )%string
  end.

Definition getWithdrawalStatus (client : Client)
    (parameters : GetWithdrawalStatusParameters)
  : Async GetWithdrawalStatusReturnType :=
  let receipt := receipt parameters in
  match getWithdrawals receipt with
  | [] => throw (ReceiptContainsNoWithdrawalsError (transactionHash receipt))
  | withdrawal :: _ =>
      (* [await getPortalVersion(...)] is evaluated while the array handed
         to [Promise.allSettled] is built: its rejection is thrown on *)
      version <- query QPortalVersion (getPortalVersion client) ;;
      portalVersion <- settle (ret version) ;;
      checkWithdrawalResult <-
        settle (query (QCheckWithdrawal (hashWithdrawal withdrawal))
                      (checkWithdrawal client (hashWithdrawal withdrawal))) ;;
      match portalVersion with
      | inl reason => throw reason
      | inr portalVersion =>
          if major portalVersion =? 2 then throw (PlainError "add me back")
          else
            match checkWithdrawalResult with
            | inr _ => ret ReadyToFinalize
            | inl reason =>
                let revertMessage := causeArg0 reason in
                if negb (causeIsRevert reason) then throw reason
                else if negb (includesOptional finalizedWithdrawalMessages revertMessage)
                then throw reason
                else match switchRevertMessage revertMessage with
                     | inl e => throw e
                     | inr status => ret status
                     end
            end
      end
  end.

End WithCollaborators.
End Part000.

(* --------------------------------------------------------------------- *)
(** ** [waitForNextL2Output] *)

Module WaitForNextL2Output.

(** What the promise of [waitForNextL2Output] resolves with: the output of
    [getL2Output], or [{ ...game, l2BlockNumber: blockNumber }]. *)
Inductive Resolution :=
| OutputResolution (output : L2Output)
| GameResolution (game : Game) (l2BlockNumber : Z).

(** The promise built by [new Promise((resolve, reject) => ...)]. *)
Inductive PromiseState :=
| Pending
| Fulfilled (r : Resolution)
| Rejected (e : JsError).

(** The state a polling loop carries: the [active] flag of [poll], the
    promise, the queries issued so far and the number of ticks run. *)
Record PollState := {
  active : bool;
  promise : PromiseState;
  issued : list Query;
  ticks : nat
}.

Definition initialState (issued : list Query) : PollState :=
  {| active := true; promise := Pending; issued := issued; ticks := 0 |}.

(** [unpoll()] *)
Definition unpoll (st : PollState) : PollState :=
  {| active := false; promise := promise st;
     issued := issued st; ticks := ticks st |}.

(** [resolve(v)] and [reject(e)] settle a pending promise and do nothing to
    a settled one. *)
Definition resolve (v : Resolution) (st : PollState) : PollState :=
  match promise st with
  | Pending => {| active := active st; promise := Fulfilled v;
                  issued := issued st; ticks := ticks st |}
  | _ => st
  end.

Definition reject (e : JsError) (st : PollState) : PollState :=
  match promise st with
  | Pending => {| active := active st; promise := Rejected e;
                  issued := issued st; ticks := ticks st |}
  | _ => st
  end.

(** [await] of a query inside the tick *)
Definition issue (q : Query) (st : PollState) : PollState :=
  {| active := active st; promise := promise st;
     issued := issued st ++ [q]; ticks := ticks st |}.

Record WaitForNextL2OutputParameters := {
  l2BlockNumber : Z
}.

Section WithCollaborators.
Context `{Collaborators}.

(** [if (isLegacy) { try { ... } catch (e) { ... } }] *)
Definition legacyBlock (client : Client)
    (parameters : WaitForNextL2OutputParameters) (st : PollState) : PollState :=
  let st := issue (QL2Output (l2BlockNumber parameters)) st in
  match getL2Output client (l2BlockNumber parameters) with
  | inr output => resolve (OutputResolution output) (unpoll st)
  | inl error =>
      if negb (causeIsRevert error) then reject error (unpoll st) else st
  end.

(** [for (const game of latestGames) { ... }], inside the [try]: an error
    of [decodeAbiParameters] leaves the loop for the [catch] block. *)
Fixpoint scanGames (latestGames : list Game)
    (parameters : WaitForNextL2OutputParameters) (st : PollState) : PollState :=
  match latestGames with
  | [] => st
  | game :: rest =>
      match decodeAbiParameters [uint256] (extraData game) with
      | inl e => reject e (unpoll st)
      | inr (VUint blockNumber :: _) =>
          if blockNumber >? l2BlockNumber parameters
          then scanGames rest parameters
                 (resolve (GameResolution game blockNumber) (unpoll st))
          else scanGames rest parameters st
      | inr _ => scanGames rest parameters st
      end
  end.

(** The second [try { ... } catch (e) { unpoll(); reject(e) }] of the tick.
    The two arguments go through [Number(...)], which is exact for a game
    count up to 2^53 + 1; beyond that the start index is the nearest
    double. *)
Definition currentBlock (client : Client)
    (parameters : WaitForNextL2OutputParameters) (st : PollState) : PollState :=
  let st := issue QGameCount st in
  match gameCount client with
  | inl e => reject e (unpoll st)
  | inr gameCount =>
      let st := issue QRespectedGameType st in
      match respectedGameType client with
      | inl e => reject e (unpoll st)
      | inr gameType =>
          let start := Z.max 0 (gameCount - 1) in
          let count := Z.min 100 gameCount in
          let st := issue (QFindLatestGames gameType start count) st in
          match findLatestGames client gameType start count with
          | inl e => reject e (unpoll st)
          | inr latestGames => scanGames latestGames parameters st
          end
      end
  end.

(** The callback handed to [poll]. *)
Definition tick (isLegacy : bool) (client : Client)
    (parameters : WaitForNextL2OutputParameters) (st : PollState) : PollState :=
  let st := if isLegacy then legacyBlock client parameters st else st in
  currentBlock client parameters st.

(** Modelled from the spec: [poll] (utils/poll.js) is imported and its
    source is not part of these modules.  The specification describes it as a loop of ticks at a fixed
    interval with "an explicit state flag checked at the top of each tick"
    and "a single cancellation point (stop-polling) that, once invoked, is
    terminal"; a tick has returned before the next one is scheduled.
    [clients] is the chain as seen at each successive tick: the loop runs
    for as many ticks as the list is long, unless it is cancelled first. *)
Fixpoint poll (fn : Client -> PollState -> PollState)
    (clients : list Client) (st : PollState) : PollState :=
  match clients with
  | [] => st
  | client :: later =>
      if active st
      then poll fn later
             (fn client {| active := active st; promise := promise st;
                           issued := issued st; ticks := S (ticks st) |})
      else st
  end.

(** The promise of a call that threw before [poll] was reached: no loop
    runs. *)
Definition rejectedAtEntry (e : JsError) (issued : list Query) : PollState :=
  {| active := false; promise := Rejected e; issued := issued; ticks := 0 |}.

(** [waitForNextL2Output(client, parameters)].  [client] is the chain at the
    time of the call, [clients] the chain at each polling tick. *)
Definition waitForNextL2Output (client : Client) (clients : list Client)
    (parameters : WaitForNextL2OutputParameters) : PollState :=
  match getPortalVersion client with
  | inl e => rejectedAtEntry e [QPortalVersion]
  | inr version =>
      let isLegacy := major version <? 3 in
      if isLegacy then
        match getTimeToNextL2Output client with
        | inl e => rejectedAtEntry e [QPortalVersion; QTimeToNextL2Output]
        | inr seconds =>
            poll (fun c => tick isLegacy c parameters) clients
                 (initialState [QPortalVersion; QTimeToNextL2Output])
        end
      else
        poll (fun c => tick isLegacy c parameters) clients
             (initialState [QPortalVersion])
  end.

End WithCollaborators.
End WaitForNextL2Output.

(* --------------------------------------------------------------------- *)
(** ** Vocabulary of the properties *)

(** A [checkWithdrawal] failure that is a contract revert with a reason of
    the table: the cause is a [ContractFunctionRevertedError] and its first
    revert argument is one of the nine messages.  This is how the two-query
    resolver, and [outputNotProposed] on both paths, read a revert reason. *)
Definition revertedWithListedReason (e : JsError) : bool :=
  causeIsRevert e && includesOptional finalizedWithdrawalMessages (causeArg0 e).

(** What the catch handler of the V3 path lets through: an error named
    [ContractFunctionExecutionError] whose cause has one of the nine
    messages as its [message].  The handler does not ask whether the cause
    is a revert and does not read the revert reason, so this is not
    [revertedWithListedReason]. *)
Definition revertedWithListedMessage (e : JsError) : bool :=
  String.eqb (errorName e) "ContractFunctionExecutionError" &&
  match errorCause e with
  | Some cause => includes finalizedWithdrawalMessages (causeMessage cause)
  | None => false
  end.

Definition checkSucceededOrListed (check : Result unit) : bool :=
  match check with
  | inr _ => true
  | inl e => revertedWithListedMessage e
  end.

(** A revert of [checkWithdrawal] whose reason is not in the table, whether
    the reason is read from the cause's message (as the V3 path does) or from
    the revert data (as the two-query resolver does). *)
Definition unlistedRevert (e : JsError) : Prop :=
  causeIsRevert e = true /\
  (forall cause, errorCause e = Some cause ->
     includes finalizedWithdrawalMessages (causeMessage cause) = false) /\
  includesOptional finalizedWithdrawalMessages (causeArg0 e) = false.

(** Two withdrawals with the same six hashed fields; [withdrawalHash] is
    not among them. *)
Definition sameSixFields (w1 w2 : Withdrawal) : Prop :=
  nonce w1 = nonce w2 /\ sender w1 = sender w2 /\ target w1 = target w2 /\
  value w1 = value w2 /\ gasLimit w1 = gasLimit w2 /\ data w1 = data w2.

(** The fields are values of their Solidity types: [uint256] numbers,
    twenty-byte addresses, and [bytes] whose length is a [uint256]. *)
Definition validWithdrawal (w : Withdrawal) : Prop :=
  0 <= nonce w < 2 ^ 256 /\
  length (sender w) = 20%nat /\
  length (target w) = 20%nat /\
  0 <= value w < 2 ^ 256 /\
  0 <= gasLimit w < 2 ^ 256 /\
  Z.of_nat (length (data w)) < 2 ^ 256.

(** [keccak256] has no collision between two distinct ABI encodings. *)
Definition keccakCollisionFree `{Collaborators} : Prop :=
  forall vs1 vs2,
    encodeAbiParameters withdrawalAbiParameters vs1
      <> encodeAbiParameters withdrawalAbiParameters vs2 ->
    keccak256 (encodeAbiParameters withdrawalAbiParameters vs1)
      <> keccak256 (encodeAbiParameters withdrawalAbiParameters vs2).

(** The ABI encoding tells the values of two valid withdrawals apart. *)
Definition encodingInjective `{Collaborators} : Prop :=
  forall w1 w2,
    validWithdrawal w1 -> validWithdrawal w2 ->
    encodeAbiParameters withdrawalAbiParameters (withdrawalAbiValues w1)
      = encodeAbiParameters withdrawalAbiParameters (withdrawalAbiValues w2) ->
    withdrawalAbiValues w1 = withdrawalAbiValues w2.

(** A game whose extra data decodes to a block number at or below
    [target]. *)
Definition decodesAtOrBelow `{Collaborators} (target : Z) (game : Game) : Prop :=
  exists blockNumber rest,
    decodeAbiParameters [uint256] (extraData game)
      = inr (VUint blockNumber :: rest) /\
    blockNumber <= target.

(** A promise that has not been settled. *)
Definition isPending (p : WaitForNextL2Output.PromiseState) : bool :=
  match p with
  | WaitForNextL2Output.Pending => true
  | _ => false
  end.

(** The loop is cancelled exactly when the promise is settled. *)
Definition cancelledIffSettled (st : WaitForNextL2Output.PollState) : Prop :=
  WaitForNextL2Output.active st = isPending (WaitForNextL2Output.promise st).

(* --------------------------------------------------------------------- *)
(** ** Concrete collaborators and chains, to run the definitions on *)

Module Examples.

(** A 32-byte big-endian word. *)
Definition be32 (z : Z) : Hex := rev (le_split 32 z).

Definition zeros (n : nat) : Hex := repeat Byte.x00 n.

Definition padLeft32 (b : Hex) : Hex := zeros (32 - length b) ++ b.

Definition padRight32 (b : Hex) : Hex :=
  b ++ zeros ((32 - length b mod 32) mod 32).

Definition lengthZ (b : Hex) : Z := Z.of_nat (length b).

(** The contract ABI encoding of a tuple of [uint256], [address] and
    [bytes] values: one head word per value (the value itself, or for
    [bytes] the offset of its tail), then the tails. *)
Definition abiTail (v : AbiValue) : Hex :=
  match v with
  | VBytes b => be32 (lengthZ b) ++ padRight32 b
  | _ => []
  end.

Fixpoint abiHeads (vs : list AbiValue) (offset : Z) : Hex :=
  match vs with
  | [] => []
  | v :: rest =>
      match v with
      | VUint n => be32 n
      | VAddress a => padLeft32 a
      | VBytes _ => be32 offset
      end ++ abiHeads rest (offset + lengthZ (abiTail v))
  end.

Definition abiEncode (vs : list AbiValue) : Hex :=
  abiHeads vs (32 * Z.of_nat (length vs)) ++ concat (map abiTail vs).

(** Decoding of a single [uint256]: the first word of the data. *)
Definition abiDecodeUint256 (b : Hex) : Result (list AbiValue) :=
  if (length b <? 32)%nat
  then inl (ActionError "AbiDecodingDataSizeTooSmallError" None)
  else inr [VUint (le_combine (rev (firstn 32 b)))].

(** A receipt's withdrawals: here every log is one withdrawal, with the
    log as its data and as its hash. *)
Definition withdrawalOfLog (log : Hex) : Withdrawal :=
  {| nonce := 0; sender := zeros 20; target := zeros 20; value := 0;
     gasLimit := 0; data := log; withdrawalHash := log |}.

(** The stand-in for [keccak256] is the identity, which has no
    collisions. *)
Definition collaborators : Collaborators :=
  {| keccak256 := fun b => b;
     encodeAbiParameters := fun _ vs => abiEncode vs;
     decodeAbiParameters := fun _ b => abiDecodeUint256 b;
     getWithdrawals := fun r => map withdrawalOfLog (logs r) |}.

Definition someOutput : L2Output :=
  {| outputIndex := 7; outputRoot := []; outputTimestamp := 1000;
     outputL2BlockNumber := 120 |}.

Definition revertedWith (reason : string) : JsError :=
  ActionError "ContractFunctionExecutionError"
    (Some {| causeMessage := reason;
             isContractFunctionRevertedError := true;
             revertArg0 := Some reason |}).

(** A chain in the final case: the output is committed, the withdrawal
    proven and not finalized; [check] is the outcome of the
    [checkWithdrawal] simulation, [majorVersion] the portal's version and
    [output] the outcome of the output fetch. *)
Definition chain (majorVersion : Z) (output : Result L2Output)
    (check : Result unit) (games : list Game) : Client :=
  {| getPortalVersion := inr {| major := majorVersion; minor := 0; patch := 0 |};
     getL2Output := fun _ => output;
     provenWithdrawals := fun _ _ => inr ([], 1);
     finalizedWithdrawals := fun _ _ => inr false;
     checkWithdrawal := fun _ => check;
     getTimeToFinalize := fun _ => inr 0;
     getTimeToNextL2Output := inr 0;
     gameCount := inr (Z.of_nat (length games));
     respectedGameType := inr 0;
     findLatestGames := fun _ _ _ => inr games |}.

(** A chain on which the portal-version read fails. *)
Definition chainWithoutVersion : Client :=
  {| getPortalVersion := inl (ActionError "HttpRequestError" None);
     getL2Output := fun _ => inr someOutput;
     provenWithdrawals := fun _ _ => inr ([], 1);
     finalizedWithdrawals := fun _ _ => inr false;
     checkWithdrawal := fun _ => inr tt;
     getTimeToFinalize := fun _ => inr 0;
     getTimeToNextL2Output := inr 0;
     gameCount := inr 0;
     respectedGameType := inr 0;
     findLatestGames := fun _ _ _ => inr [] |}.

Definition emptyReceipt : TransactionReceipt :=
  {| transactionHash := [Byte.xab]; blockNumber := 100; logs := [] |}.

Definition receiptWithWithdrawal : TransactionReceipt :=
  {| transactionHash := [Byte.xab]; blockNumber := 100; logs := [[Byte.x01]] |}.

(** A revert whose reason is not in the table of known messages. *)
Definition pausedRevert : JsError := revertedWith "OptimismPortal: paused".

Definition notProposedRevert : JsError := revertedWith revertNotProposed.

Definition withVersion (version : option Z) : GetWithdrawalStatusParameters :=
  {| receipt := receiptWithWithdrawal; portalVersion := version |}.

Definition emptyWithVersion (version : option Z) : GetWithdrawalStatusParameters :=
  {| receipt := emptyReceipt; portalVersion := version |}.

Definition withdrawalWithNonce (n : Z) : Withdrawal :=
  {| nonce := n; sender := zeros 20; target := zeros 20; value := 5;
     gasLimit := 21000; data := [Byte.x01; Byte.x02]; withdrawalHash := [] |}.

Definition gameAt (blockNumber : Z) : Game :=
  {| gameIndex := 0; gameMetadata := []; gameTimestamp := 0;
     rootClaim := []; extraData := be32 blockNumber |}.

End Examples.

(** More chains and errors to run the definitions on. *)
Module MoreExamples.
Import Examples.

(** A version 3 chain with the output committed, on which the proven record,
    the finalized flag, the time to finalize and the [checkWithdrawal]
    simulation are as given. *)
Definition chainWith (proven : Result (Hex * Z)) (finalized : Result bool)
    (seconds : Result Z) (check : Result unit) : Client :=
  {| getPortalVersion := inr {| major := 3; minor := 0; patch := 0 |};
     getL2Output := fun _ => inr someOutput;
     provenWithdrawals := fun _ _ => proven;
     finalizedWithdrawals := fun _ _ => finalized;
     checkWithdrawal := fun _ => check;
     getTimeToFinalize := fun _ => seconds;
     getTimeToNextL2Output := inr 0;
     gameCount := inr 0;
     respectedGameType := inr 0;
     findLatestGames := fun _ _ _ => inr [] |}.

(** A chain whose dispute-game factory cannot be read. *)
Definition chainWithoutGames (e : JsError) : Client :=
  {| getPortalVersion := inr {| major := 3; minor := 0; patch := 0 |};
     getL2Output := fun _ => inr someOutput;
     provenWithdrawals := fun _ _ => inr ([], 1);
     finalizedWithdrawals := fun _ _ => inr false;
     checkWithdrawal := fun _ => inr tt;
     getTimeToFinalize := fun _ => inr 0;
     getTimeToNextL2Output := inr 0;
     gameCount := inl e;
     respectedGameType := inr 0;
     findLatestGames := fun _ _ _ => inr [] |}.

Definition goodChain : Client := chain 3 (inr someOutput) (inr tt) [].

Definition theWithdrawal : Withdrawal := withdrawalOfLog [Byte.x01].

Definition transportError : JsError := ActionError "HttpRequestError" None.

(** A game whose extra data is too short to hold a block number. *)
Definition brokenGame : Game :=
  {| gameIndex := 1; gameMetadata := []; gameTimestamp := 0;
     rootClaim := []; extraData := [Byte.x01] |}.

Definition noArguments : BaseErrorClass.BaseErrorParameters :=
  {| BaseErrorClass.argDocsPath := None;
     BaseErrorClass.argDocsSlug := None;
     BaseErrorClass.argMetaMessages := None;
     BaseErrorClass.argCause := None;
     BaseErrorClass.argDetails := None |}.

Definition withDocsPath (path : string) : BaseErrorClass.BaseErrorParameters :=
  {| BaseErrorClass.argDocsPath := Some path;
     BaseErrorClass.argDocsSlug := None;
     BaseErrorClass.argMetaMessages := None;
     BaseErrorClass.argCause := None;
     BaseErrorClass.argDetails := Some "ignored" |}.

(** A revert error as [BaseError] builds it. *)
Definition revertError : BaseErrorClass.ErrorObject :=
  BaseErrorClass.construct "2.0.0"
    "OptimismPortal: proven withdrawal has not matured yet" noArguments.

(** The failure of a [checkWithdrawal] simulation that reverts because the
    withdrawal has not matured: the reason is the first revert argument, and
    the message of the cause is the one [BaseError] builds. *)
Definition maturityRevert : JsError :=
  ActionError "ContractFunctionExecutionError"
    (Some {| causeMessage := BaseErrorClass.errorMessage revertError;
             isContractFunctionRevertedError := true;
             revertArg0 :=
               Some "OptimismPortal: proven withdrawal has not matured yet" |}).

End MoreExamples.

(* ===================================================================== *)
(** * Part II: properties *)
(* ===================================================================== *)

Module BaseErrorFacts.
Import BaseError.

Lemma causeChain_cons err : exists rest, causeChain err = err :: rest.
Proof. destruct err; cbn; eauto. Qed.

Lemma last_causeChain_indep err d d' :
  last (causeChain err) d = last (causeChain err) d'.
Proof.
  destruct (causeChain_cons err) as [rest ->].
  revert err. induction rest as [|x rest IH]; intro err; [reflexivity|].
  cbn [last]. apply (IH x).
Qed.

Lemma walk_no_predicate err :
  walk err None = last (causeChain err) err.
Proof.
  induction err as [p | l | l c IH]; try reflexivity.
  cbn [walk callOptional causeChain]. rewrite IH.
  transitivity (last (causeChain c) (ObjWithCause l c));
    [apply last_causeChain_indep|].
  destruct (causeChain_cons c) as [rest E]. rewrite E. reflexivity.
Qed.

Lemma causeChain_inner_have_cause err e :
  In e (removelast (causeChain err)) -> hasCause e = true.
Proof.
  induction err as [p | l | l c IH]; cbn [causeChain]; try (cbn; tauto).
  destruct (causeChain_cons c) as [rest E].
  rewrite E.
  change (removelast (ObjWithCause l c :: c :: rest))
    with (ObjWithCause l c :: removelast (c :: rest)).
  rewrite <- E. intros [<- | H]; [reflexivity | auto].
Qed.

Lemma walk_innermost err : hasCause (walk err None) = false.
Proof. induction err; cbn; auto. Qed.

Lemma walk_predicate err f :
  walk err (Some f) =
  match find f (causeChain err) with Some e => e | None => null end.
Proof.
  induction err as [p | l | l c IH]; cbn [walk callOptional causeChain find];
    destruct (f _); auto.
Qed.

(** C10.  For every value (hence every error; the cause chain of an
    inductive value is finite), [walk] without a predicate returns the
    innermost value of the cause chain, that is the first value of the
    chain that has no ['cause'] property, and [walk fn] returns the
    outermost value of the chain that satisfies [fn], or [null] when none
    does. *)
Theorem walk_refines_walkSpec :
  forall err,
    walk err None = last (causeChain err) err /\
    hasCause (walk err None) = false /\
    (forall e, In e (removelast (causeChain err)) -> hasCause e = true) /\
    (forall fn,
       walk err (Some fn) =
       match find fn (causeChain err) with
       | Some e => e
       | None => null
       end) /\
    (forall fn, walk err fn = walkSpec err fn).
Proof.
  intro err. split; [apply walk_no_predicate|].
  split; [apply walk_innermost|].
  split; [apply causeChain_inner_have_cause|].
  split; [intro fn; apply walk_predicate|].
  intros [f|]; [apply walk_predicate | apply walk_no_predicate].
Qed.

End BaseErrorFacts.

(* --------------------------------------------------------------------- *)
(** ** [hashWithdrawal] *)

Module HashWithdrawalFacts.

Lemma sameSixFields_values w1 w2 :
  sameSixFields w1 w2 <-> withdrawalAbiValues w1 = withdrawalAbiValues w2.
Proof.
  unfold sameSixFields, withdrawalAbiValues. split.
  - intros (-> & -> & -> & -> & -> & ->). reflexivity.
  - intros [= -> -> -> -> -> ->]. repeat split.
Qed.

(** C9.  [hashWithdrawal] is a function of the six fields [nonce],
    [sender], [target], [value], [gasLimit] and [data]: two withdrawals
    that agree on them have the same hash; and when [keccak256] has no
    collision between distinct ABI encodings, and the ABI encoding tells
    the values of valid withdrawals apart, two valid withdrawals that
    differ in one of the six fields have different hashes. *)
Theorem hashWithdrawal_function_of_six_fields `{Collaborators} :
  (forall w1 w2, sameSixFields w1 w2 -> hashWithdrawal w1 = hashWithdrawal w2) /\
  (keccakCollisionFree -> encodingInjective ->
   forall w1 w2,
     validWithdrawal w1 -> validWithdrawal w2 ->
     ~ sameSixFields w1 w2 ->
     hashWithdrawal w1 <> hashWithdrawal w2).
Proof.
  split.
  - intros w1 w2 Hsame%sameSixFields_values. unfold hashWithdrawal.
    now rewrite Hsame.
  - intros Hkeccak Hencode w1 w2 Hv1 Hv2 Hdiff. unfold hashWithdrawal.
    apply Hkeccak. intro Heq. apply Hdiff, sameSixFields_values.
    now apply Hencode.
Qed.

(** *** The standard ABI encoding is injective on valid withdrawals *)

Import Examples.

Lemma app_inj_length {A} (a c b d : list A) :
  length a = length c -> a ++ b = c ++ d -> a = c /\ b = d.
Proof.
  revert c. induction a as [|x a IH]; intros [|y c] Hlen Heq;
    try discriminate; [auto|].
  injection Hlen as Hlen. injection Heq as -> Heq.
  destruct (IH c Hlen Heq) as [-> ->]. auto.
Qed.

Lemma length_be32 z : length (be32 z) = 32%nat.
Proof. unfold be32. now rewrite length_rev, length_le_split. Qed.

Lemma be32_inj z1 z2 :
  0 <= z1 < 2 ^ 256 -> 0 <= z2 < 2 ^ 256 -> be32 z1 = be32 z2 -> z1 = z2.
Proof.
  intros H1 H2 Heq%rev_inj.
  apply (f_equal le_combine) in Heq. rewrite !le_combine_split in Heq.
  change (Z.of_nat 32 * 8) with 256 in Heq.
  now rewrite !Z.mod_small in Heq.
Qed.

Lemma length_padLeft32 b : length b = 20%nat -> length (padLeft32 b) = 32%nat.
Proof.
  intro Hb. unfold padLeft32, zeros. rewrite length_app, repeat_length, Hb.
  reflexivity.
Qed.

Lemma padLeft32_inj b1 b2 :
  length b1 = 20%nat -> length b2 = 20%nat ->
  padLeft32 b1 = padLeft32 b2 -> b1 = b2.
Proof.
  unfold padLeft32. intros -> ->. apply app_inv_head.
Qed.

Lemma padRight32_inj b1 b2 :
  length b1 = length b2 -> padRight32 b1 = padRight32 b2 -> b1 = b2.
Proof.
  unfold padRight32. intros Hlen Heq.
  now destruct (app_inj_length _ _ _ _ Hlen Heq).
Qed.

Lemma abiEncode_withdrawal_inj : @encodingInjective collaborators.
Proof.
  intros w1 w2 (Hn1 & Hs1 & Ht1 & Hv1 & Hg1 & Hd1) (Hn2 & Hs2 & Ht2 & Hv2 & Hg2 & Hd2).
  cbn [encodeAbiParameters collaborators].
  unfold abiEncode, withdrawalAbiValues.
  cbn [abiHeads abiTail map concat].
  rewrite <- !app_assoc. cbn [app]. rewrite !app_nil_r.
  intro Heq.
  apply app_inj_length in Heq; [|now rewrite !length_be32].
  destruct Heq as [Hnonce Heq].
  apply app_inj_length in Heq; [|now rewrite !length_padLeft32].
  destruct Heq as [Hsender Heq].
  apply app_inj_length in Heq; [|now rewrite !length_padLeft32].
  destruct Heq as [Htarget Heq].
  apply app_inj_length in Heq; [|now rewrite !length_be32].
  destruct Heq as [Hvalue Heq].
  apply app_inj_length in Heq; [|now rewrite !length_be32].
  destruct Heq as [HgasLimit Heq].
  apply app_inj_length in Heq; [|now rewrite !length_be32].
  destruct Heq as [_ Heq].
  apply app_inj_length in Heq; [|now rewrite !length_be32].
  destruct Heq as [Hlen Hdata].
  apply be32_inj in Hnonce, Hvalue, HgasLimit; try assumption.
  apply padLeft32_inj in Hsender, Htarget; try assumption.
  apply be32_inj in Hlen; unfold lengthZ in *; try lia.
  apply padRight32_inj in Hdata; [|lia].
  congruence.
Qed.

Lemma identity_collision_free : @keccakCollisionFree collaborators.
Proof. intros vs1 vs2 Hneq. exact Hneq. Qed.

Lemma withdrawalWithNonce_valid n :
  0 <= n < 2 ^ 256 -> validWithdrawal (withdrawalWithNonce n).
Proof. intro Hn. unfold validWithdrawal. cbn. repeat split; lia. Qed.

(** The witness of C9: two withdrawals that differ in their nonce, hashed
    over the standard ABI encoding. *)
Lemma hashWithdrawal_function_of_six_fields_witness :
  @keccakCollisionFree collaborators /\
  @encodingInjective collaborators /\
  validWithdrawal (withdrawalWithNonce 1) /\
  validWithdrawal (withdrawalWithNonce 2) /\
  ~ sameSixFields (withdrawalWithNonce 1) (withdrawalWithNonce 2) /\
  @hashWithdrawal collaborators (withdrawalWithNonce 1)
    <> @hashWithdrawal collaborators (withdrawalWithNonce 2).
Proof.
  assert (Hv1 : validWithdrawal (withdrawalWithNonce 1))
    by (apply withdrawalWithNonce_valid; lia).
  assert (Hv2 : validWithdrawal (withdrawalWithNonce 2))
    by (apply withdrawalWithNonce_valid; lia).
  assert (Hd : ~ sameSixFields (withdrawalWithNonce 1) (withdrawalWithNonce 2))
    by (intros (Hn & _); discriminate Hn).
  repeat (split; [first [exact identity_collision_free
                        | exact abiEncode_withdrawal_inj
                        | assumption]|]).
  exact (proj2 (@hashWithdrawal_function_of_six_fields collaborators)
           identity_collision_free abiEncode_withdrawal_inj
           (withdrawalWithNonce 1) (withdrawalWithNonce 2) Hv1 Hv2 Hd).
Defined.

End HashWithdrawalFacts.

(* --------------------------------------------------------------------- *)
(** ** The status resolvers *)

(** Unfold an asynchronous computation down to its log and outcome. *)
Ltac unfold_async :=
  cbv beta delta [run bind settle query catch andThen ret throw] in *.

Module GetWithdrawalStatusFacts.
Section WithCollaborators.
Context `{Collaborators}.
Import GetWithdrawalStatus.

Variable client : Client.
Variable parameters : GetWithdrawalStatusParameters.

Let theReceipt := receipt parameters.

(** The outcome of the V3 path once the first three reads have succeeded
    with a proven, unfinalized withdrawal: it is decided by the fourth
    promise alone. *)
Lemma getWithdrawalStatusV3_final withdrawal rest output root proveTimestamp :
  getWithdrawals theReceipt = withdrawal :: rest ->
  getL2Output client (blockNumber theReceipt) = inr output ->
  provenWithdrawals client portal2Abi (withdrawalHash withdrawal)
    = inr (root, proveTimestamp) ->
  proveTimestamp <> 0 ->
  finalizedWithdrawals client portal2Abi (withdrawalHash withdrawal) = inr false ->
  snd (run (getWithdrawalStatusV3 client parameters)) =
  match checkWithdrawal client (hashWithdrawal withdrawal) with
  | inr _ => inr ReadyToFinalize
  | inl e => match checkWithdrawalCatch e with
             | inr _ => inr ReadyToFinalize
             | inl e' => inl e'
             end
  end.
Proof.
  intros Hw Hout Hprove Hts Hfin. subst theReceipt.
  unfold getWithdrawalStatusV3. rewrite Hw. unfold_async.
  rewrite Hout, Hprove, Hfin. cbn.
  apply Z.eqb_neq in Hts.
  destruct (checkWithdrawal client (hashWithdrawal withdrawal)) as [e|[]]; cbn.
  - destruct (checkWithdrawalCatch e); cbn; [reflexivity|].
    now rewrite Hts.
  - now rewrite Hts.
Qed.

(** The table of known messages has nine entries. *)
Lemma nine_known_messages : length finalizedWithdrawalMessages = 9%nat.
Proof. reflexivity. Qed.

Lemma checkWithdrawalCatch_listed e :
  revertedWithListedMessage e = true ->
  checkWithdrawalCatch e = inr (Caught e).
Proof.
  unfold revertedWithListedMessage, checkWithdrawalCatch.
  intros [Hn Hc]%andb_prop. rewrite Hn. cbn [negb].
  destruct (errorCause e); [|discriminate]. now rewrite Hc.
Qed.

Lemma checkWithdrawalCatch_unlisted e :
  revertedWithListedMessage e = false ->
  exists e', checkWithdrawalCatch e = inl e' /\
             (errorCause e <> None \/
              errorName e <> "ContractFunctionExecutionError" -> e' = e).
Proof.
  unfold revertedWithListedMessage, checkWithdrawalCatch. intro Hf.
  destruct (String.eqb (errorName e) "ContractFunctionExecutionError") eqn:Hn;
    cbn [negb andb] in *; [|eauto].
  destruct (errorCause e) as [c|].
  - rewrite Hf. cbn [negb]. eauto.
  - exists JsTypeError. split; [reflexivity|].
    apply String.eqb_eq in Hn. intros [Hc|Hc]; congruence.
Qed.

(** C1.  What the V3 path does with a listed revert.  For a withdrawal whose
    output fetch succeeded, whose proven timestamp is nonzero and whose
    finalized flag is false, when the simulated [checkWithdrawal] call
    reverts with a reason of the table, the call never returns
    waiting-to-finalize: it returns ready-to-finalize if the error is a
    [ContractFunctionExecutionError] whose cause has a table entry as its
    very [message], and otherwise it fails with the error of the simulated
    call. *)
Theorem getWithdrawalStatusV3_listed_revert_never_waits
    withdrawal rest output root proveTimestamp e :
  getWithdrawals theReceipt = withdrawal :: rest ->
  getL2Output client (blockNumber theReceipt) = inr output ->
  provenWithdrawals client portal2Abi (withdrawalHash withdrawal)
    = inr (root, proveTimestamp) ->
  proveTimestamp <> 0 ->
  finalizedWithdrawals client portal2Abi (withdrawalHash withdrawal) = inr false ->
  checkWithdrawal client (hashWithdrawal withdrawal) = inl e ->
  revertedWithListedReason e = true ->
  snd (run (getWithdrawalStatusV3 client parameters)) <> inr WaitingToFinalize /\
  (revertedWithListedMessage e = true ->
   snd (run (getWithdrawalStatusV3 client parameters)) = inr ReadyToFinalize) /\
  (revertedWithListedMessage e = false ->
   snd (run (getWithdrawalStatusV3 client parameters)) = inl e).
Proof.
  intros Hw Hout Hprove Hts Hfin Hcheck Hreason.
  rewrite (getWithdrawalStatusV3_final _ _ _ _ _ Hw Hout Hprove Hts Hfin).
  rewrite Hcheck.
  assert (Hcause : errorCause e <> None).
  { apply andb_prop in Hreason. destruct Hreason as [Hrev _].
    unfold causeIsRevert in Hrev. destruct (errorCause e); discriminate. }
  destruct (revertedWithListedMessage e) eqn:E.
  - rewrite (checkWithdrawalCatch_listed _ E).
    split; [discriminate|]. split; [reflexivity | discriminate].
  - destruct (checkWithdrawalCatch_unlisted _ E) as (e' & -> & He').
    rewrite (He' (or_introl Hcause)).
    split; [discriminate|]. split; [discriminate | reflexivity].
Qed.

Let noWithdrawals : Result GetWithdrawalStatusReturnType :=
  inl (ReceiptContainsNoWithdrawalsError (transactionHash theReceipt)).

(** C3, as amended.  For a receipt that yields no withdrawal, the V2 and
    V3 paths and the two-query resolver fail with the no-withdrawals error
    and issue no query.  The version-dispatching entry point does so when
    the caller supplies the portal version; when the version is not
    supplied it first reads the portal version, which is its only query,
    and fails with the no-withdrawals error if that read succeeds and with
    the error of the read otherwise. *)
Theorem no_withdrawals_fails_before_status_queries :
  getWithdrawals theReceipt = [] ->
  run (Part000.getWithdrawalStatus client parameters) = ([], noWithdrawals) /\
  run (getWithdrawalStatusV3 client parameters) = ([], noWithdrawals) /\
  run (getWithdrawalStatusV2 client parameters) = ([], noWithdrawals) /\
  (forall version, portalVersion parameters = Some version ->
     run (getWithdrawalStatus client parameters) = ([], noWithdrawals)) /\
  (portalVersion parameters = None ->
     run (getWithdrawalStatus client parameters) =
     ([QPortalVersion],
      match getPortalVersion client with
      | inl e => inl e
      | inr _ => noWithdrawals
      end)).
Proof.
  intro Hw. subst noWithdrawals theReceipt.
  unfold Part000.getWithdrawalStatus, getWithdrawalStatus,
    getWithdrawalStatusV3, getWithdrawalStatusV2.
  rewrite Hw. unfold_async.
  repeat split.
  - intros version ->. now destruct (version =? 2).
  - intros ->. cbn. destruct (getPortalVersion client) as [e|v]; [reflexivity|].
    now destruct (major v =? 2).
Qed.

(** The V2 and V3 paths when the output fetch reverts with the
    not-yet-proposed reason. *)
Lemma paths_waiting_to_prove withdrawal rest error :
  getWithdrawals theReceipt = withdrawal :: rest ->
  getL2Output client (blockNumber theReceipt) = inl error ->
  outputNotProposed error = true ->
  snd (run (getWithdrawalStatusV3 client parameters)) = inr WaitingToProve /\
  snd (run (getWithdrawalStatusV2 client parameters)) = inr WaitingToProve.
Proof.
  intros Hw Hout Hnp. subst theReceipt.
  unfold getWithdrawalStatusV3, getWithdrawalStatusV2.
  rewrite Hw. unfold_async. rewrite Hout, Hnp. cbn.
  split; reflexivity.
Qed.

Lemma switchRevertMessage_not_waiting_to_prove m :
  Part000.switchRevertMessage m <> inr WaitingToProve.
Proof.
  unfold Part000.switchRevertMessage. destruct m as [m|]; [|discriminate].
  repeat match goal with
         | |- context [if ?b then _ else _] => destruct b
         end; discriminate.
Qed.

(** The two-query resolver has no waiting-to-prove outcome. *)
Lemma Part000_never_waiting_to_prove :
  snd (run (Part000.getWithdrawalStatus client parameters)) <> inr WaitingToProve.
Proof.
  unfold Part000.getWithdrawalStatus.
  destruct (getWithdrawals _) as [|w rest]; [discriminate|].
  unfold_async. cbn.
  destruct (getPortalVersion client) as [e|v]; cbn; [discriminate|].
  destruct (major v =? 2); [discriminate|].
  destruct (checkWithdrawal client _) as [e|]; cbn; [|discriminate].
  destruct (causeIsRevert e); cbn; [|discriminate].
  destruct (includesOptional _ _); cbn; [|discriminate].
  pose proof (switchRevertMessage_not_waiting_to_prove (causeArg0 e)) as Hs.
  destruct (Part000.switchRevertMessage (causeArg0 e)); cbn; congruence.
Qed.

(** C6, as amended.  For a withdrawal whose output fetch reverts with the
    not-yet-proposed reason, the resolver with the V2 and V3 paths returns
    waiting-to-prove on both paths, and so does its entry point once the
    version is supplied or read.  The two-query resolver never fetches the
    output and never returns waiting-to-prove. *)
Theorem output_not_proposed_is_waiting_to_prove withdrawal rest error :
  getWithdrawals theReceipt = withdrawal :: rest ->
  getL2Output client (blockNumber theReceipt) = inl error ->
  outputNotProposed error = true ->
  snd (run (getWithdrawalStatusV3 client parameters)) = inr WaitingToProve /\
  snd (run (getWithdrawalStatusV2 client parameters)) = inr WaitingToProve /\
  (forall version, portalVersion parameters = Some version ->
     snd (run (getWithdrawalStatus client parameters)) = inr WaitingToProve) /\
  (forall version, portalVersion parameters = None ->
     getPortalVersion client = inr version ->
     snd (run (getWithdrawalStatus client parameters)) = inr WaitingToProve) /\
  snd (run (Part000.getWithdrawalStatus client parameters)) <> inr WaitingToProve /\
  ~ In (QL2Output (blockNumber theReceipt))
       (fst (run (Part000.getWithdrawalStatus client parameters))).
Proof.
  intros Hw Hout Hnp.
  destruct (paths_waiting_to_prove _ _ _ Hw Hout Hnp) as [H3 H2].
  split; [exact H3|]. split; [exact H2|].
  assert (Hsel : forall v log,
             snd ((if v =? 2 then getWithdrawalStatusV2 client parameters
                   else getWithdrawalStatusV3 client parameters) log)
             = inr WaitingToProve).
  { intros v log. subst theReceipt.
    unfold getWithdrawalStatusV3, getWithdrawalStatusV2 in *.
    rewrite Hw in *. unfold_async. rewrite Hout, Hnp in *. cbn in *.
    destruct (v =? 2); reflexivity. }
  repeat split.
  - intros version Hv. unfold getWithdrawalStatus. rewrite Hv.
    unfold run, bind, ret. apply Hsel.
  - intros version Hv Hread. unfold getWithdrawalStatus. rewrite Hv.
    unfold run, bind, andThen, query. rewrite Hread. apply Hsel.
  - apply Part000_never_waiting_to_prove.
  - subst theReceipt. unfold Part000.getWithdrawalStatus. rewrite Hw.
    unfold_async. cbn.
    destruct (getPortalVersion client) as [e|v]; cbn;
      [intros [?|[]]; discriminate|].
    destruct (major v =? 2); cbn; [intros [?|[?|[]]]; discriminate|].
    destruct (checkWithdrawal client _) as [e|]; cbn;
      [|intros [?|[?|[]]]; discriminate].
    destruct (causeIsRevert e); cbn; [|intros [?|[?|[]]]; discriminate].
    destruct (includesOptional _ _); cbn; [|intros [?|[?|[]]]; discriminate].
    destruct (Part000.switchRevertMessage _); cbn;
      intros [?|[?|[]]]; discriminate.
Qed.

Lemma unlistedRevert_not_listed e :
  unlistedRevert e -> revertedWithListedMessage e = false /\ errorCause e <> None.
Proof.
  intros (Hrev & Hmsg & _). unfold revertedWithListedMessage, causeIsRevert in *.
  destruct (errorCause e) as [c|]; [|discriminate].
  rewrite (Hmsg c eq_refl). split; [apply andb_false_r | discriminate].
Qed.

(** C5, as amended.  A [checkWithdrawal] revert whose reason is not in the
    table is never turned into a status by the classification of that
    read.  On the V3 path the call fails with that error once the output,
    proven and finalized reads have succeeded, and the only status the
    call can still return is waiting-to-prove, decided by the output fetch
    reverting with the not-yet-proposed reason.  On the two-query resolver
    the call returns no status, and fails with that error once the version
    read has succeeded with a major version other than 2. *)
Theorem unlisted_check_revert_is_not_classified withdrawal rest e :
  getWithdrawals theReceipt = withdrawal :: rest ->
  checkWithdrawal client (hashWithdrawal withdrawal) = inl e ->
  unlistedRevert e ->
  (forall output proven finalized,
     getL2Output client (blockNumber theReceipt) = inr output ->
     provenWithdrawals client portal2Abi (withdrawalHash withdrawal) = inr proven ->
     finalizedWithdrawals client portal2Abi (withdrawalHash withdrawal) = inr finalized ->
     snd (run (getWithdrawalStatusV3 client parameters)) = inl e) /\
  (forall status,
     snd (run (getWithdrawalStatusV3 client parameters)) = inr status ->
     status = WaitingToProve /\
     exists error,
       getL2Output client (blockNumber theReceipt) = inl error /\
       outputNotProposed error = true) /\
  (forall version,
     getPortalVersion client = inr version -> major version <> 2 ->
     snd (run (Part000.getWithdrawalStatus client parameters)) = inl e) /\
  (forall status,
     snd (run (Part000.getWithdrawalStatus client parameters)) <> inr status).
Proof.
  intros Hw Hcheck Hun.
  destruct (unlistedRevert_not_listed _ Hun) as [Hnl Hcause].
  destruct (checkWithdrawalCatch_unlisted _ Hnl) as (e' & Hcatch & He').
  specialize (He' (or_introl Hcause)). subst e'.
  destruct Hun as (Hrev & _ & Harg).
  subst theReceipt.
  unfold getWithdrawalStatusV3, Part000.getWithdrawalStatus.
  rewrite Hw. unfold_async. rewrite Hcheck. cbn. rewrite Hcatch.
  repeat split.
  - intros output [root ts] finalized -> -> ->. reflexivity.
  - destruct (getL2Output client _) as [error|]; cbn in *.
    + destruct (outputNotProposed error); cbn in *; congruence.
    + destruct (provenWithdrawals client portal2Abi _) as [|[]]; cbn in *;
        [discriminate|].
      destruct (finalizedWithdrawals client portal2Abi _); discriminate.
  - destruct (getL2Output client _) as [error|]; cbn in *.
    + exists error. destruct (outputNotProposed error); cbn in *;
        [auto | discriminate].
    + destruct (provenWithdrawals client portal2Abi _) as [|[]]; cbn in *;
        [discriminate|].
      destruct (finalizedWithdrawals client portal2Abi _); discriminate.
  - intros version -> Hmajor. apply Z.eqb_neq in Hmajor. cbn.
    rewrite Hmajor, Hrev. cbn. now rewrite Harg.
  - intros status. destruct (getPortalVersion client) as [|v]; cbn;
      [discriminate|].
    destruct (major v =? 2); [discriminate|].
    rewrite Hrev. cbn. rewrite Harg. discriminate.
Qed.

(** The final case of the V2 path. *)
Lemma getWithdrawalStatusV2_final
    withdrawal rest output root proveTimestamp seconds :
  getWithdrawals theReceipt = withdrawal :: rest ->
  getL2Output client (blockNumber theReceipt) = inr output ->
  provenWithdrawals client portalAbi (withdrawalHash withdrawal)
    = inr (root, proveTimestamp) ->
  proveTimestamp <> 0 ->
  finalizedWithdrawals client portalAbi (withdrawalHash withdrawal) = inr false ->
  getTimeToFinalize client (withdrawalHash withdrawal) = inr seconds ->
  snd (run (getWithdrawalStatusV2 client parameters)) =
  inr (if seconds >? 0 then WaitingToFinalize else ReadyToFinalize).
Proof.
  intros Hw Hout Hprove Hts Hfin Htime. subst theReceipt.
  unfold getWithdrawalStatusV2. rewrite Hw. unfold_async.
  rewrite Hout, Hprove, Hfin, Htime. cbn.
  apply Z.eqb_neq in Hts. now rewrite Hts.
Qed.

(** C7.  On a portal of major version 2 the two-query resolver fails with
    the error "add me back", whatever the chain holds: it does not follow
    the legacy decision order. *)
Theorem Part000_fails_on_version_2 withdrawal rest version :
  getWithdrawals theReceipt = withdrawal :: rest ->
  getPortalVersion client = inr version ->
  major version = 2 ->
  snd (run (Part000.getWithdrawalStatus client parameters))
    = inl (PlainError "add me back").
Proof.
  intros Hw Hv Hmajor. subst theReceipt.
  unfold Part000.getWithdrawalStatus. rewrite Hw. unfold_async.
  rewrite Hv. cbn. now rewrite Hmajor.
Qed.

End WithCollaborators.

(** The failing input of C1: the output is committed, the withdrawal is
    proven and not finalized, and [checkWithdrawal] reverts with the reason
    "proven withdrawal has not matured yet", the error being built as
    [BaseError] builds it.  The call fails with that error. *)
Lemma getWithdrawalStatusV3_listed_revert_never_waits_witness :
  (1 <> 0) /\
  revertedWithListedReason MoreExamples.maturityRevert = true /\
  revertedWithListedMessage MoreExamples.maturityRevert = false /\
  snd (run (@GetWithdrawalStatus.getWithdrawalStatusV3 Examples.collaborators
              (Examples.chain 3 (inr Examples.someOutput)
                 (inl MoreExamples.maturityRevert) [])
              (Examples.withVersion (Some 3))))
    <> inr WaitingToFinalize /\
  snd (run (@GetWithdrawalStatus.getWithdrawalStatusV3 Examples.collaborators
              (Examples.chain 3 (inr Examples.someOutput)
                 (inl MoreExamples.maturityRevert) [])
              (Examples.withVersion (Some 3))))
    = inl MoreExamples.maturityRevert.
Proof.
  assert (Hts : 1 <> 0) by discriminate.
  assert (Hreason : revertedWithListedReason MoreExamples.maturityRevert = true)
    by reflexivity.
  assert (Hmessage : revertedWithListedMessage MoreExamples.maturityRevert = false)
    by reflexivity.
  split; [exact Hts|]. split; [exact Hreason|]. split; [exact Hmessage|].
  destruct (@getWithdrawalStatusV3_listed_revert_never_waits
              Examples.collaborators
              (Examples.chain 3 (inr Examples.someOutput)
                 (inl MoreExamples.maturityRevert) [])
              (Examples.withVersion (Some 3))
              (Examples.withdrawalOfLog [Byte.x01]) [] Examples.someOutput [] 1
              MoreExamples.maturityRevert
              eq_refl eq_refl eq_refl Hts eq_refl eq_refl Hreason)
    as (Hnever & _ & Hfails).
  split; [exact Hnever | exact (Hfails Hmessage)].
Defined.

(** The same revert in the one shape the catch handler lets through -- the
    reason as the cause's whole message: the call returns ready-to-finalize,
    where the two-query resolver returns waiting-to-finalize. *)
Example getWithdrawalStatusV3_listed_message_is_ready :
  snd (run (@GetWithdrawalStatus.getWithdrawalStatusV3 Examples.collaborators
              (Examples.chain 3 (inr Examples.someOutput)
                 (inl (Examples.revertedWith
                         "OptimismPortal: proven withdrawal has not matured yet"))
                 [])
              (Examples.withVersion (Some 3))))
    = inr ReadyToFinalize /\
  snd (run (@Part000.getWithdrawalStatus Examples.collaborators
              (Examples.chain 3 (inr Examples.someOutput)
                 (inl (Examples.revertedWith
                         "OptimismPortal: proven withdrawal has not matured yet"))
                 [])
              (Examples.withVersion None)))
    = inr WaitingToFinalize.
Proof. split; reflexivity. Qed.

(** The witness of C3: the empty receipt, with the version supplied. *)
Lemma no_withdrawals_fails_before_status_queries_witness :
  @getWithdrawals Examples.collaborators Examples.emptyReceipt = [] /\
  run (@GetWithdrawalStatus.getWithdrawalStatus Examples.collaborators
         (Examples.chain 3 (inr Examples.someOutput) (inr tt) [])
         (Examples.emptyWithVersion (Some 3)))
    = ([], inl (ReceiptContainsNoWithdrawalsError [Byte.xab])).
Proof.
  split; [reflexivity|].
  apply (@no_withdrawals_fails_before_status_queries Examples.collaborators
           (Examples.chain 3 (inr Examples.someOutput) (inr tt) [])
           (Examples.emptyWithVersion (Some 3)) eq_refl) with (version := 3).
  reflexivity.
Defined.

(** C3, the claim as written fails: when the caller supplies no portal
    version, the entry point reads the portal version before it looks at
    the receipt; and when that read fails, the call fails with the error of
    the read and not with the no-withdrawals error. *)
Lemma getWithdrawalStatus_reads_version_first :
  @getWithdrawals Examples.collaborators Examples.emptyReceipt = [] /\
  run (@GetWithdrawalStatus.getWithdrawalStatus Examples.collaborators
         (Examples.chain 3 (inr Examples.someOutput) (inr tt) [])
         (Examples.emptyWithVersion None))
    = ([QPortalVersion], inl (ReceiptContainsNoWithdrawalsError [Byte.xab])) /\
  run (@GetWithdrawalStatus.getWithdrawalStatus Examples.collaborators
         Examples.chainWithoutVersion
         (Examples.emptyWithVersion None))
    = ([QPortalVersion], inl (ActionError "HttpRequestError" None)).
Proof. repeat split. Qed.

Lemma pausedRevert_unlisted : unlistedRevert Examples.pausedRevert.
Proof.
  repeat split. intros cause [= <-]. reflexivity.
Qed.

(** The witness of C5: the output is committed, the withdrawal proven, and
    [checkWithdrawal] reverts with a reason that is not in the table. *)
Lemma unlisted_check_revert_is_not_classified_witness :
  unlistedRevert Examples.pausedRevert /\
  snd (run (@GetWithdrawalStatus.getWithdrawalStatusV3 Examples.collaborators
              (Examples.chain 3 (inr Examples.someOutput)
                 (inl Examples.pausedRevert) [])
              (Examples.withVersion (Some 3))))
    = inl Examples.pausedRevert /\
  snd (run (@Part000.getWithdrawalStatus Examples.collaborators
              (Examples.chain 3 (inr Examples.someOutput)
                 (inl Examples.pausedRevert) [])
              (Examples.withVersion (Some 3))))
    = inl Examples.pausedRevert.
Proof.
  split; [exact pausedRevert_unlisted|].
  destruct (@unlisted_check_revert_is_not_classified Examples.collaborators
              (Examples.chain 3 (inr Examples.someOutput)
                 (inl Examples.pausedRevert) [])
              (Examples.withVersion (Some 3))
              (Examples.withdrawalOfLog [Byte.x01]) [] Examples.pausedRevert
              eq_refl eq_refl pausedRevert_unlisted) as (H3 & _ & H0 & _).
  split.
  - exact (H3 Examples.someOutput ([], 1) false eq_refl eq_refl eq_refl).
  - apply (H0 {| major := 3; minor := 0; patch := 0 |} eq_refl). discriminate.
Defined.

(** C5, the claim as written fails: with a [checkWithdrawal] revert that is
    not in the table, the V3 path still returns a status when the output
    fetch reverts with the not-yet-proposed reason. *)
Lemma getWithdrawalStatusV3_unlisted_yet_waiting_to_prove :
  checkWithdrawal (Examples.chain 3 (inl Examples.notProposedRevert)
                     (inl Examples.pausedRevert) [])
                  (@hashWithdrawal Examples.collaborators
                     (Examples.withdrawalOfLog [Byte.x01]))
    = inl Examples.pausedRevert /\
  causeIsRevert Examples.pausedRevert = true /\
  includes finalizedWithdrawalMessages "OptimismPortal: paused" = false /\
  snd (run (@GetWithdrawalStatus.getWithdrawalStatusV3 Examples.collaborators
              (Examples.chain 3 (inl Examples.notProposedRevert)
                 (inl Examples.pausedRevert) [])
              (Examples.withVersion (Some 3))))
    = inr WaitingToProve.
Proof. repeat split. Qed.

(** The witness of C6: the output fetch reverts with the not-yet-proposed
    reason on a portal of version 3. *)
Lemma output_not_proposed_is_waiting_to_prove_witness :
  outputNotProposed Examples.notProposedRevert = true /\
  snd (run (@GetWithdrawalStatus.getWithdrawalStatusV3 Examples.collaborators
              (Examples.chain 3 (inl Examples.notProposedRevert) (inr tt) [])
              (Examples.withVersion (Some 3))))
    = inr WaitingToProve.
Proof.
  split; [reflexivity|].
  apply (@output_not_proposed_is_waiting_to_prove Examples.collaborators
           (Examples.chain 3 (inl Examples.notProposedRevert) (inr tt) [])
           (Examples.withVersion (Some 3))
           (Examples.withdrawalOfLog [Byte.x01]) [] Examples.notProposedRevert
           eq_refl eq_refl eq_refl).
Defined.

(** C6, the claim as written fails: on a version 3 portal whose output
    fetch reverts with the not-yet-proposed reason, and whose
    [checkWithdrawal] accordingly reverts because the withdrawal is not
    proven, the two-query resolver returns ready-to-prove. *)
Lemma Part000_output_not_proposed_not_waiting_to_prove :
  getL2Output
    (Examples.chain 3 (inl Examples.notProposedRevert)
       (inl (Examples.revertedWith
               "OptimismPortal: withdrawal has not been proven yet")) []) 100
    = inl Examples.notProposedRevert /\
  outputNotProposed Examples.notProposedRevert = true /\
  snd (run (@Part000.getWithdrawalStatus Examples.collaborators
              (Examples.chain 3 (inl Examples.notProposedRevert)
                 (inl (Examples.revertedWith
                         "OptimismPortal: withdrawal has not been proven yet")) [])
              (Examples.withVersion None)))
    = inr ReadyToProve.
Proof. repeat split. Qed.

(** The failing input of C7: a portal of version 2 whose withdrawal is
    proven, not finalized and past its finalization period. *)
Lemma Part000_fails_on_version_2_witness :
  major {| major := 2; minor := 0; patch := 0 |} = 2 /\
  snd (run (@Part000.getWithdrawalStatus Examples.collaborators
              (Examples.chain 2 (inr Examples.someOutput) (inr tt) [])
              (Examples.withVersion None)))
    = inl (PlainError "add me back") /\
  snd (run (@GetWithdrawalStatus.getWithdrawalStatus Examples.collaborators
              (Examples.chain 2 (inr Examples.someOutput) (inr tt) [])
              (Examples.withVersion None)))
    = inr ReadyToFinalize.
Proof.
  split; [reflexivity|]. split; [|reflexivity].
  apply (@Part000_fails_on_version_2 Examples.collaborators
           (Examples.chain 2 (inr Examples.someOutput) (inr tt) [])
           (Examples.withVersion None)
           (Examples.withdrawalOfLog [Byte.x01]) []
           {| major := 2; minor := 0; patch := 0 |} eq_refl eq_refl eq_refl).
Defined.

End GetWithdrawalStatusFacts.

(* --------------------------------------------------------------------- *)
(** ** The output waiter *)

Module WaitForNextL2OutputFacts.
Import WaitForNextL2Output.

Section WithCollaborators.
Context `{Collaborators}.

Variable parameters : WaitForNextL2OutputParameters.

(** *** A settled promise stays as it is *)

Lemma resolve_settled v st : promise st <> Pending -> resolve v st = st.
Proof. unfold resolve. destruct (promise st); congruence. Qed.

Lemma reject_settled e st : promise st <> Pending -> reject e st = st.
Proof. unfold reject. destruct (promise st); congruence. Qed.

Lemma promise_resolve_unpoll v st :
  promise (resolve v (unpoll st)) =
  match promise st with Pending => Fulfilled v | p => p end.
Proof. unfold resolve, unpoll; cbn. destruct (promise st); reflexivity. Qed.

Lemma promise_reject_unpoll e st :
  promise (reject e (unpoll st)) =
  match promise st with Pending => Rejected e | p => p end.
Proof. unfold reject, unpoll; cbn. destruct (promise st); reflexivity. Qed.

Lemma active_resolve_unpoll v st : active (resolve v (unpoll st)) = false.
Proof. unfold resolve, unpoll; cbn. destruct (promise st); reflexivity. Qed.

Lemma active_reject_unpoll e st : active (reject e (unpoll st)) = false.
Proof. unfold reject, unpoll; cbn. destruct (promise st); reflexivity. Qed.

Lemma scanGames_keeps_settled games st :
  promise st <> Pending -> promise (scanGames games parameters st) = promise st.
Proof.
  revert st. induction games as [|game rest IH]; intros st Hs; [reflexivity|].
  cbn [scanGames].
  destruct (decodeAbiParameters _ _) as [e|[|[bn|a|b] values]].
  - rewrite promise_reject_unpoll. destruct (promise st); congruence.
  - now apply IH.
  - destruct (bn >? _).
    + rewrite IH; rewrite promise_resolve_unpoll; destruct (promise st); congruence.
    + now apply IH.
  - now apply IH.
  - now apply IH.
Qed.

Lemma currentBlock_keeps_settled client st :
  promise st <> Pending -> promise (currentBlock client parameters st) = promise st.
Proof.
  intro Hs. unfold currentBlock.
  destruct (gameCount client) as [e|n];
    [rewrite promise_reject_unpoll; cbn; destruct (promise st); congruence|].
  destruct (respectedGameType client) as [e|t];
    [rewrite promise_reject_unpoll; cbn; destruct (promise st); congruence|].
  destruct (findLatestGames client _ _ _) as [e|games];
    [rewrite promise_reject_unpoll; cbn; destruct (promise st); congruence|].
  now rewrite scanGames_keeps_settled.
Qed.

Lemma legacyBlock_keeps_settled client st :
  promise st <> Pending -> promise (legacyBlock client parameters st) = promise st.
Proof.
  intro Hs. unfold legacyBlock.
  destruct (getL2Output client _) as [e|o].
  - destruct (negb (causeIsRevert e)); [|reflexivity].
    rewrite promise_reject_unpoll; cbn. destruct (promise st); congruence.
  - rewrite promise_resolve_unpoll; cbn. destruct (promise st); congruence.
Qed.

Lemma tick_keeps_settled isLegacy client st :
  promise st <> Pending ->
  promise (tick isLegacy client parameters st) = promise st.
Proof.
  intro Hs. unfold tick. destruct isLegacy.
  - rewrite currentBlock_keeps_settled; rewrite legacyBlock_keeps_settled; auto.
  - now apply currentBlock_keeps_settled.
Qed.

(** *** A cancelled loop is not revived within a tick *)

Lemma scanGames_stays_cancelled games st :
  active st = false -> active (scanGames games parameters st) = false.
Proof.
  revert st. induction games as [|game rest IH]; intros st Ha; [exact Ha|].
  cbn [scanGames].
  destruct (decodeAbiParameters _ _) as [e|[|[bn|a|b] values]]; auto.
  - apply active_reject_unpoll.
  - destruct (bn >? _); auto. apply IH. apply active_resolve_unpoll.
Qed.

Lemma currentBlock_stays_cancelled client st :
  active st = false -> active (currentBlock client parameters st) = false.
Proof.
  intro Ha. unfold currentBlock.
  destruct (gameCount client); [apply active_reject_unpoll|].
  destruct (respectedGameType client); [apply active_reject_unpoll|].
  destruct (findLatestGames client _ _ _); [apply active_reject_unpoll|].
  now apply scanGames_stays_cancelled.
Qed.

(** *** Cancelling and settling go together *)

Lemma consistent_resolve_unpoll v st :
  cancelledIffSettled st -> cancelledIffSettled (resolve v (unpoll st)).
Proof.
  unfold cancelledIffSettled. intro Hc.
  rewrite active_resolve_unpoll, promise_resolve_unpoll.
  destruct (promise st); reflexivity.
Qed.

Lemma consistent_reject_unpoll e st :
  cancelledIffSettled st -> cancelledIffSettled (reject e (unpoll st)).
Proof.
  unfold cancelledIffSettled. intro Hc.
  rewrite active_reject_unpoll, promise_reject_unpoll.
  destruct (promise st); reflexivity.
Qed.

Lemma consistent_issue q st :
  cancelledIffSettled st -> cancelledIffSettled (issue q st).
Proof. exact (fun Hc => Hc). Qed.

Lemma consistent_scanGames games st :
  cancelledIffSettled st -> cancelledIffSettled (scanGames games parameters st).
Proof.
  revert st. induction games as [|game rest IH]; intros st Hc; [exact Hc|].
  cbn [scanGames].
  destruct (decodeAbiParameters _ _) as [e|[|[bn|a|b] values]]; auto.
  - now apply consistent_reject_unpoll.
  - destruct (bn >? _); auto. apply IH. now apply consistent_resolve_unpoll.
Qed.

Lemma consistent_currentBlock client st :
  cancelledIffSettled st -> cancelledIffSettled (currentBlock client parameters st).
Proof.
  intro Hc. unfold currentBlock.
  destruct (gameCount client); [now apply consistent_reject_unpoll|].
  destruct (respectedGameType client); [now apply consistent_reject_unpoll|].
  destruct (findLatestGames client _ _ _); [now apply consistent_reject_unpoll|].
  now apply consistent_scanGames.
Qed.

Lemma consistent_legacyBlock client st :
  cancelledIffSettled st -> cancelledIffSettled (legacyBlock client parameters st).
Proof.
  intro Hc. unfold legacyBlock.
  destruct (getL2Output client _) as [e|o].
  - destruct (negb (causeIsRevert e)); [|exact Hc].
    now apply consistent_reject_unpoll.
  - now apply consistent_resolve_unpoll.
Qed.

Lemma consistent_tick isLegacy client st :
  cancelledIffSettled st -> cancelledIffSettled (tick isLegacy client parameters st).
Proof.
  intro Hc. unfold tick. apply consistent_currentBlock.
  destruct isLegacy; [now apply consistent_legacyBlock | exact Hc].
Qed.

Lemma consistent_poll isLegacy clients st :
  cancelledIffSettled st ->
  cancelledIffSettled (poll (fun c => tick isLegacy c parameters) clients st).
Proof.
  revert st. induction clients as [|c later IH]; intros st Hc; [exact Hc|].
  cbn [poll]. destruct (active st) eqn:Ha; [|exact Hc].
  apply IH. apply consistent_tick.
  unfold cancelledIffSettled in *. cbn. congruence.
Qed.

(** *** A cancelled loop runs no further tick *)

Lemma poll_cancelled fn clients st : active st = false -> poll fn clients st = st.
Proof. intro Ha. destruct clients; cbn [poll]; [reflexivity | now rewrite Ha]. Qed.

Lemma poll_app fn clients later st :
  poll fn (clients ++ later) st = poll fn later (poll fn clients st).
Proof.
  revert st. induction clients as [|c cs IH]; intro st; [reflexivity|].
  cbn [poll app]. destruct (active st) eqn:Ha; [apply IH|].
  symmetry. now apply poll_cancelled.
Qed.

(** C8.  The loop is cancelled exactly when the promise is settled; once
    the promise is settled -- fulfilled or rejected, on the legacy branch
    or the current one -- the call is in its final state: however long
    polling could have gone on, no further tick runs, no further query is
    issued and the promise keeps its value; and no call of [resolve] or
    [reject] in a tick changes a settled promise. *)
Theorem waitForNextL2Output_resolves_at_most_once client clients later :
  cancelledIffSettled (waitForNextL2Output client clients parameters) /\
  (promise (waitForNextL2Output client clients parameters) <> Pending ->
   waitForNextL2Output client (clients ++ later) parameters
     = waitForNextL2Output client clients parameters) /\
  (forall isLegacy c st,
     promise st <> Pending ->
     promise (tick isLegacy c parameters st) = promise st).
Proof.
  assert (Hinv : cancelledIffSettled
                   (waitForNextL2Output client clients parameters)).
  { unfold waitForNextL2Output.
    destruct (getPortalVersion client) as [e|v]; [reflexivity|].
    destruct (major v <? 3).
    - destruct (getTimeToNextL2Output client); [reflexivity|].
      apply consistent_poll. reflexivity.
    - apply consistent_poll. reflexivity. }
  split; [exact Hinv|]. split; [|intros; now apply tick_keeps_settled].
  intro Hs. unfold cancelledIffSettled in Hinv.
  assert (Ha : active (waitForNextL2Output client clients parameters) = false).
  { rewrite Hinv.
    destruct (promise (waitForNextL2Output client clients parameters));
      cbn; congruence. }
  clear Hinv Hs. revert Ha. unfold waitForNextL2Output.
  destruct (getPortalVersion client) as [e|v]; [reflexivity|].
  destruct (major v <? 3).
  - destruct (getTimeToNextL2Output client); [reflexivity|].
    intro Ha. rewrite poll_app. now apply poll_cancelled.
  - intro Ha. rewrite poll_app. now apply poll_cancelled.
Qed.

(** C4, as amended.  On the legacy path, when the output fetch of a tick
    fails with an error whose cause is a contract revert -- whatever its
    reason -- the legacy block neither cancels the loop nor settles the
    promise; when the cause of the error is not a contract revert, the
    tick cancels the loop and the promise is rejected with that error. *)
Theorem legacy_fetch_failure_continues_on_any_revert client st error :
  getL2Output client (l2BlockNumber parameters) = inl error ->
  promise st = Pending ->
  (causeIsRevert error = true ->
     active (legacyBlock client parameters st) = active st /\
     promise (legacyBlock client parameters st) = Pending) /\
  (causeIsRevert error = false ->
     active (tick true client parameters st) = false /\
     promise (tick true client parameters st) = Rejected error).
Proof.
  intros Hout Hp. split; intro Hrev.
  - unfold legacyBlock. rewrite Hout, Hrev. cbn. auto.
  - assert (Hl : promise (legacyBlock client parameters st) = Rejected error).
    { unfold legacyBlock. rewrite Hout, Hrev. cbn [negb].
      rewrite promise_reject_unpoll. cbn. now rewrite Hp. }
    assert (Ha : active (legacyBlock client parameters st) = false).
    { unfold legacyBlock. rewrite Hout, Hrev. cbn [negb].
      apply active_reject_unpoll. }
    unfold tick. split.
    + now apply currentBlock_stays_cancelled.
    + rewrite currentBlock_keeps_settled; congruence.
Qed.

(** *** Which games the scan matches *)

(** A game the tick resolves with is in the batch and its decoded block
    number is strictly greater than the target. *)
Lemma scanGames_fulfilled games st game blockNumber :
  promise st = Pending ->
  promise (scanGames games parameters st)
    = Fulfilled (GameResolution game blockNumber) ->
  In game games /\
  (exists rest, decodeAbiParameters [uint256] (extraData game)
                = inr (VUint blockNumber :: rest)) /\
  blockNumber > l2BlockNumber parameters.
Proof.
  revert st. induction games as [|g rest IH]; intros st Hp; cbn [scanGames].
  - congruence.
  - destruct (decodeAbiParameters _ (extraData g)) as [e|[|[bn|a|b] values]] eqn:Hd.
    + rewrite promise_reject_unpoll, Hp. discriminate.
    + intro Hf. destruct (IH st Hp Hf) as (? & ? & ?). cbn; auto.
    + destruct (bn >? l2BlockNumber parameters) eqn:Hgt.
      * rewrite scanGames_keeps_settled;
          rewrite promise_resolve_unpoll, Hp; [|discriminate].
        intros [= <- <-]. split; [now left|]. split; [eauto | lia].
      * intro Hf. destruct (IH st Hp Hf) as (? & ? & ?). cbn; auto.
    + intro Hf. destruct (IH st Hp Hf) as (? & ? & ?). cbn; auto.
    + intro Hf. destruct (IH st Hp Hf) as (? & ? & ?). cbn; auto.
Qed.

Lemma scanGames_at_or_below_target games st :
  (forall game, In game games ->
     exists blockNumber rest,
       decodeAbiParameters [uint256] (extraData game)
         = inr (VUint blockNumber :: rest) /\
       blockNumber <= l2BlockNumber parameters) ->
  scanGames games parameters st = st.
Proof.
  induction games as [|g rest IH]; intro Hall; [reflexivity|].
  cbn [scanGames].
  destruct (Hall g (or_introl eq_refl)) as (bn & values & -> & Hle).
  replace (bn >? l2BlockNumber parameters) with false
    by (symmetry; rewrite Z.gtb_ltb; apply Z.ltb_ge; lia).
  apply IH. intros game Hin. apply Hall. now right.
Qed.

(** C2, what the code does.  On the current path, a tick whose batch holds
    only games with a decoded block number less than or equal to the
    target -- equal included -- settles nothing and keeps polling. *)
Theorem tick_resolves_nothing_at_or_below_target
    client st count gameType games :
  gameCount client = inr count ->
  respectedGameType client = inr gameType ->
  findLatestGames client gameType (Z.max 0 (count - 1)) (Z.min 100 count)
    = inr games ->
  (forall game, In game games ->
     exists blockNumber rest,
       decodeAbiParameters [uint256] (extraData game)
         = inr (VUint blockNumber :: rest) /\
       blockNumber <= l2BlockNumber parameters) ->
  promise (tick false client parameters st) = promise st /\
  active (tick false client parameters st) = active st.
Proof.
  intros Hcount Htype Hgames Hall.
  unfold tick, currentBlock. rewrite Hcount, Htype, Hgames.
  rewrite scanGames_at_or_below_target by exact Hall.
  split; reflexivity.
Qed.

End WithCollaborators.

(** The failing input of C2: the batch holds one game, whose decoded block
    number is the target itself. *)
Lemma tick_resolves_nothing_at_or_below_target_witness :
  @decodeAbiParameters Examples.collaborators [uint256]
     (extraData (Examples.gameAt 120)) = inr [VUint 120] /\
  promise (@tick Examples.collaborators false
             (Examples.chain 3 (inr Examples.someOutput) (inr tt)
                [Examples.gameAt 120])
             {| l2BlockNumber := 120 |} (initialState []))
    = Pending /\
  active (@tick Examples.collaborators false
            (Examples.chain 3 (inr Examples.someOutput) (inr tt)
               [Examples.gameAt 120])
            {| l2BlockNumber := 120 |} (initialState []))
    = true.
Proof.
  split; [vm_compute; reflexivity|].
  apply (@tick_resolves_nothing_at_or_below_target Examples.collaborators
           {| l2BlockNumber := 120 |}
           (Examples.chain 3 (inr Examples.someOutput) (inr tt)
              [Examples.gameAt 120])
           (initialState []) 1 0 [Examples.gameAt 120]
           eq_refl eq_refl eq_refl).
  intros game [<-|[]]. exists 120, []. split; [vm_compute; reflexivity|].
  cbn. lia.
Defined.

(** On the legacy path the tick does not stop after its legacy block: with
    the output fetched and the promise fulfilled, it still issues the three
    dispute-game queries, and the promise keeps the output. *)
Example legacy_tick_runs_current_block_too :
  issued (@tick Examples.collaborators true
            (Examples.chain 2 (inr Examples.someOutput) (inr tt)
               [Examples.gameAt 121])
            {| l2BlockNumber := 120 |} (initialState []))
    = [QL2Output 120; QGameCount; QRespectedGameType; QFindLatestGames 0 0 1] /\
  promise (@tick Examples.collaborators true
             (Examples.chain 2 (inr Examples.someOutput) (inr tt)
                [Examples.gameAt 121])
             {| l2BlockNumber := 120 |} (initialState []))
    = Fulfilled (OutputResolution Examples.someOutput).
Proof. vm_compute. split; reflexivity. Qed.

(** A game one block above the target is matched. *)
Example tick_resolves_above_target :
  promise (@tick Examples.collaborators false
             (Examples.chain 3 (inr Examples.someOutput) (inr tt)
                [Examples.gameAt 119; Examples.gameAt 121])
             {| l2BlockNumber := 120 |} (initialState []))
    = Fulfilled (GameResolution (Examples.gameAt 121) 121).
Proof. vm_compute. reflexivity. Qed.

(** The witness of C4: the output fetch fails with a transport error. *)
Lemma legacy_fetch_failure_continues_on_any_revert_witness :
  causeIsRevert (ActionError "HttpRequestError" None) = false /\
  active (@tick Examples.collaborators true
            (Examples.chain 2 (inl (ActionError "HttpRequestError" None))
               (inr tt) [])
            {| l2BlockNumber := 120 |} (initialState []))
    = false /\
  promise (@tick Examples.collaborators true
             (Examples.chain 2 (inl (ActionError "HttpRequestError" None))
                (inr tt) [])
             {| l2BlockNumber := 120 |} (initialState []))
    = Rejected (ActionError "HttpRequestError" None).
Proof.
  split; [reflexivity|].
  apply (@legacy_fetch_failure_continues_on_any_revert Examples.collaborators
           {| l2BlockNumber := 120 |}
           (Examples.chain 2 (inl (ActionError "HttpRequestError" None))
              (inr tt) [])
           (initialState []) (ActionError "HttpRequestError" None)
           eq_refl eq_refl).
  reflexivity.
Defined.

(** C4, the claim as written fails: on the legacy path, an output fetch
    that reverts with a reason other than the not-yet-proposed one does not
    cancel the loop; the tick ends with the loop active and the promise
    pending. *)
Lemma legacy_tick_continues_on_other_revert :
  getL2Output (Examples.chain 2 (inl Examples.pausedRevert) (inr tt) []) 120
    = inl Examples.pausedRevert /\
  causeIsRevert Examples.pausedRevert = true /\
  causeArg0 Examples.pausedRevert <> Some revertNotProposed /\
  active (@tick Examples.collaborators true
            (Examples.chain 2 (inl Examples.pausedRevert) (inr tt) [])
            {| l2BlockNumber := 120 |} (initialState []))
    = true /\
  promise (@tick Examples.collaborators true
             (Examples.chain 2 (inl Examples.pausedRevert) (inr tt) [])
             {| l2BlockNumber := 120 |} (initialState []))
    = Pending.
Proof. repeat split. discriminate. Qed.

(** The witness of C8: the first tick finds a game above the target; two
    more rounds of polling change nothing. *)
Lemma waitForNextL2Output_resolves_at_most_once_witness :
  promise (@waitForNextL2Output Examples.collaborators
             (Examples.chain 3 (inr Examples.someOutput) (inr tt) [])
             [Examples.chain 3 (inr Examples.someOutput) (inr tt)
                [Examples.gameAt 121]]
             {| l2BlockNumber := 120 |})
    <> Pending /\
  @waitForNextL2Output Examples.collaborators
    (Examples.chain 3 (inr Examples.someOutput) (inr tt) [])
    ([Examples.chain 3 (inr Examples.someOutput) (inr tt) [Examples.gameAt 121]]
     ++ [Examples.chain 3 (inr Examples.someOutput) (inr tt) [Examples.gameAt 122];
         Examples.chain 3 (inr Examples.someOutput) (inr tt) [Examples.gameAt 123]])
    {| l2BlockNumber := 120 |}
  = @waitForNextL2Output Examples.collaborators
      (Examples.chain 3 (inr Examples.someOutput) (inr tt) [])
      [Examples.chain 3 (inr Examples.someOutput) (inr tt) [Examples.gameAt 121]]
      {| l2BlockNumber := 120 |}.
Proof.
  assert (Hs : promise (@waitForNextL2Output Examples.collaborators
                 (Examples.chain 3 (inr Examples.someOutput) (inr tt) [])
                 [Examples.chain 3 (inr Examples.someOutput) (inr tt)
                    [Examples.gameAt 121]]
                 {| l2BlockNumber := 120 |}) <> Pending)
    by (vm_compute; discriminate).
  split; [exact Hs|].
  apply (@waitForNextL2Output_resolves_at_most_once Examples.collaborators
           {| l2BlockNumber := 120 |}
           (Examples.chain 3 (inr Examples.someOutput) (inr tt) [])
           [Examples.chain 3 (inr Examples.someOutput) (inr tt)
              [Examples.gameAt 121]]
           [Examples.chain 3 (inr Examples.someOutput) (inr tt) [Examples.gameAt 122];
            Examples.chain 3 (inr Examples.someOutput) (inr tt) [Examples.gameAt 123]]).
  exact Hs.
Defined.

End WaitForNextL2OutputFacts.


(* --------------------------------------------------------------------- *)
(** ** The status resolvers: queries, priorities and decision order *)

(** Case analysis on every outcome the goal still branches on. *)
Ltac destruct_outcomes :=
  repeat match goal with
         | |- context [match ?x with _ => _ end] => destruct x eqn:?
         end.

Module GetWithdrawalStatusOrder.
Section WithCollaborators.
Context `{Collaborators}.
Import GetWithdrawalStatus.

Variable client : Client.
Variable parameters : GetWithdrawalStatusParameters.

Let theReceipt := receipt parameters.

Lemma V3_log withdrawal rest :
  getWithdrawals theReceipt = withdrawal :: rest ->
  fst (run (getWithdrawalStatusV3 client parameters)) =
  [QL2Output (blockNumber theReceipt);
   QProvenWithdrawals portal2Abi (withdrawalHash withdrawal);
   QFinalizedWithdrawals portal2Abi (withdrawalHash withdrawal);
   QCheckWithdrawal (hashWithdrawal withdrawal)].
Proof.
  intro Hw. subst theReceipt. unfold getWithdrawalStatusV3. rewrite Hw.
  unfold_async. cbn. destruct_outcomes; reflexivity.
Qed.

Lemma V2_log withdrawal rest :
  getWithdrawals theReceipt = withdrawal :: rest ->
  fst (run (getWithdrawalStatusV2 client parameters)) =
  [QL2Output (blockNumber theReceipt);
   QProvenWithdrawals portalAbi (withdrawalHash withdrawal);
   QFinalizedWithdrawals portalAbi (withdrawalHash withdrawal);
   QTimeToFinalize (withdrawalHash withdrawal)].
Proof.
  intro Hw. subst theReceipt. unfold getWithdrawalStatusV2. rewrite Hw.
  unfold_async. cbn. destruct_outcomes; reflexivity.
Qed.

(** X1.  Exhaustive fan-out.  For a receipt with a withdrawal, the V3 path
    and the V2 path each issue their four queries, in the same order,
    whatever the outcome of any of them: a failed read does not keep the
    later ones from being issued. *)
Theorem paths_issue_all_four_queries withdrawal rest :
  getWithdrawals theReceipt = withdrawal :: rest ->
  fst (run (getWithdrawalStatusV3 client parameters)) =
    [QL2Output (blockNumber theReceipt);
     QProvenWithdrawals portal2Abi (withdrawalHash withdrawal);
     QFinalizedWithdrawals portal2Abi (withdrawalHash withdrawal);
     QCheckWithdrawal (hashWithdrawal withdrawal)] /\
  fst (run (getWithdrawalStatusV2 client parameters)) =
    [QL2Output (blockNumber theReceipt);
     QProvenWithdrawals portalAbi (withdrawalHash withdrawal);
     QFinalizedWithdrawals portalAbi (withdrawalHash withdrawal);
     QTimeToFinalize (withdrawalHash withdrawal)].
Proof.
  intro Hw. split; [eapply V3_log | eapply V2_log]; eassumption.
Qed.

(** X2.  Error priority.  On both paths the error thrown is that of the
    first failed read in the order output, proven, finalized, whatever the
    later reads returned: an output failure other than the not-yet-proposed
    revert is thrown first; with the output fetched, a failure of the proven
    read is thrown; with both fetched, a failure of the finalized read. *)
Theorem first_failed_read_is_thrown withdrawal rest :
  getWithdrawals theReceipt = withdrawal :: rest ->
  (forall e,
     getL2Output client (blockNumber theReceipt) = inl e ->
     outputNotProposed e = false ->
     snd (run (getWithdrawalStatusV3 client parameters)) = inl e /\
     snd (run (getWithdrawalStatusV2 client parameters)) = inl e) /\
  (forall output e,
     getL2Output client (blockNumber theReceipt) = inr output ->
     provenWithdrawals client portal2Abi (withdrawalHash withdrawal) = inl e ->
     snd (run (getWithdrawalStatusV3 client parameters)) = inl e) /\
  (forall output e,
     getL2Output client (blockNumber theReceipt) = inr output ->
     provenWithdrawals client portalAbi (withdrawalHash withdrawal) = inl e ->
     snd (run (getWithdrawalStatusV2 client parameters)) = inl e) /\
  (forall output proven e,
     getL2Output client (blockNumber theReceipt) = inr output ->
     provenWithdrawals client portal2Abi (withdrawalHash withdrawal) = inr proven ->
     finalizedWithdrawals client portal2Abi (withdrawalHash withdrawal) = inl e ->
     snd (run (getWithdrawalStatusV3 client parameters)) = inl e) /\
  (forall output proven e,
     getL2Output client (blockNumber theReceipt) = inr output ->
     provenWithdrawals client portalAbi (withdrawalHash withdrawal) = inr proven ->
     finalizedWithdrawals client portalAbi (withdrawalHash withdrawal) = inl e ->
     snd (run (getWithdrawalStatusV2 client parameters)) = inl e).
Proof.
  intro Hw. subst theReceipt.
  unfold getWithdrawalStatusV3, getWithdrawalStatusV2. rewrite Hw.
  unfold_async. split; [|split; [|split; [|split]]].
  - intros e Hout Hnp. rewrite Hout, Hnp. split; reflexivity.
  - intros output e Hout Hprove. rewrite Hout, Hprove. reflexivity.
  - intros output e Hout Hprove. rewrite Hout, Hprove. reflexivity.
  - intros output [root ts] e Hout Hprove Hfin.
    rewrite Hout, Hprove, Hfin. reflexivity.
  - intros output [root ts] e Hout Hprove Hfin.
    rewrite Hout, Hprove, Hfin. reflexivity.
Qed.

(** The fourth promise of the V3 path is fulfilled when the read succeeded
    or reverted with a listed message. *)
Lemma fourth_promise_fulfilled check :
  checkSucceededOrListed check = true ->
  exists v,
    match check with
    | inl e => checkWithdrawalCatch e
    | inr _ => inr IsTrue
    end = inr v.
Proof.
  destruct check as [e|u]; cbn [checkSucceededOrListed]; intro Hc; [|eauto].
  rewrite (GetWithdrawalStatusFacts.checkWithdrawalCatch_listed _ Hc). eauto.
Qed.

(** X3.  The proven timestamp is looked at before the finalized flag.  When
    the four reads raise no error and the proven timestamp is zero, both
    paths return ready-to-prove, whether the finalized flag is set or
    not. *)
Theorem zero_timestamp_is_ready_to_prove withdrawal rest output root :
  getWithdrawals theReceipt = withdrawal :: rest ->
  getL2Output client (blockNumber theReceipt) = inr output ->
  (forall finalized,
     provenWithdrawals client portal2Abi (withdrawalHash withdrawal)
       = inr (root, 0) ->
     finalizedWithdrawals client portal2Abi (withdrawalHash withdrawal)
       = inr finalized ->
     checkSucceededOrListed
       (checkWithdrawal client (hashWithdrawal withdrawal)) = true ->
     snd (run (getWithdrawalStatusV3 client parameters)) = inr ReadyToProve) /\
  (forall finalized seconds,
     provenWithdrawals client portalAbi (withdrawalHash withdrawal)
       = inr (root, 0) ->
     finalizedWithdrawals client portalAbi (withdrawalHash withdrawal)
       = inr finalized ->
     getTimeToFinalize client (withdrawalHash withdrawal) = inr seconds ->
     snd (run (getWithdrawalStatusV2 client parameters)) = inr ReadyToProve).
Proof.
  intros Hw Hout. subst theReceipt.
  unfold getWithdrawalStatusV3, getWithdrawalStatusV2. rewrite Hw.
  unfold_async. rewrite Hout. split.
  - intros finalized Hprove Hfin Hcheck. rewrite Hprove, Hfin. cbn.
    destruct (fourth_promise_fulfilled _ Hcheck) as [v Hv].
    destruct (checkWithdrawal client (hashWithdrawal withdrawal));
      cbn; try rewrite Hv; reflexivity.
  - intros finalized seconds Hprove Hfin Htime.
    rewrite Hprove, Hfin, Htime. reflexivity.
Qed.


(** X5.  The last case of the V2 path.  With the output fetched, a nonzero
    proven timestamp, the finalized flag unset and the time to finalize
    read, the status is waiting-to-finalize exactly when seconds are left,
    and ready-to-finalize exactly when none are (zero or negative). *)
Theorem V2_waits_while_seconds_remain
    withdrawal rest output root proveTimestamp seconds :
  getWithdrawals theReceipt = withdrawal :: rest ->
  getL2Output client (blockNumber theReceipt) = inr output ->
  provenWithdrawals client portalAbi (withdrawalHash withdrawal)
    = inr (root, proveTimestamp) ->
  proveTimestamp <> 0 ->
  finalizedWithdrawals client portalAbi (withdrawalHash withdrawal) = inr false ->
  getTimeToFinalize client (withdrawalHash withdrawal) = inr seconds ->
  (snd (run (getWithdrawalStatusV2 client parameters)) = inr WaitingToFinalize
     <-> 0 < seconds) /\
  (snd (run (getWithdrawalStatusV2 client parameters)) = inr ReadyToFinalize
     <-> seconds <= 0).
Proof.
  intros Hw Hout Hprove Hts%Z.eqb_neq Hfin Htime. subst theReceipt.
  unfold getWithdrawalStatusV2. rewrite Hw. unfold_async.
  rewrite Hout, Hprove, Hfin, Htime. cbn. rewrite Hts.
  destruct (Z.gtb_spec seconds 0); split; split;
    first [lia | discriminate | reflexivity].
Qed.

(** X6.  The V3 path has no waiting-to-finalize outcome: whatever the
    receipt and the chain, it returns one of the four other statuses or
    fails. *)
Theorem V3_never_waiting_to_finalize :
  snd (run (getWithdrawalStatusV3 client parameters)) <> inr WaitingToFinalize.
Proof.
  unfold getWithdrawalStatusV3.
  destruct (getWithdrawals _) as [|w rest]; [discriminate|].
  unfold_async. cbn. unfold settledResultIsTruthy.
  destruct_outcomes; discriminate.
Qed.

(** X7.  The portal version.  When the caller supplies it, the portal
    version is never read.  When the caller does not, it is the first query,
    and if that read fails the call fails with its error and issues no other
    query. *)
Theorem portal_version_read_only_when_missing :
  (forall version,
     portalVersion parameters = Some version ->
     ~ In QPortalVersion
          (fst (run (getWithdrawalStatus client parameters)))) /\
  (portalVersion parameters = None ->
     exists later,
       fst (run (getWithdrawalStatus client parameters))
         = QPortalVersion :: later) /\
  (forall e,
     portalVersion parameters = None ->
     getPortalVersion client = inl e ->
     run (getWithdrawalStatus client parameters) = ([QPortalVersion], inl e)).
Proof.
  split; [|split].
  - intros version Hv. unfold getWithdrawalStatus. rewrite Hv.
    unfold run, bind, ret.
    destruct (getWithdrawals theReceipt) as [|w rest] eqn:Hw.
    + subst theReceipt.
      destruct (version =? 2);
        unfold getWithdrawalStatusV2, getWithdrawalStatusV3;
        rewrite Hw; cbn; tauto.
    + destruct (version =? 2).
      * change (getWithdrawalStatusV2 client parameters [])
          with (run (getWithdrawalStatusV2 client parameters)).
        rewrite (V2_log _ _ Hw). cbn. intuition discriminate.
      * change (getWithdrawalStatusV3 client parameters [])
          with (run (getWithdrawalStatusV3 client parameters)).
        rewrite (V3_log _ _ Hw). cbn. intuition discriminate.
  - intro Hv. unfold getWithdrawalStatus. rewrite Hv.
    unfold run, bind, andThen, query. cbn.
    destruct (getPortalVersion client) as [e|v]; [cbn; eauto|].
    destruct (major v =? 2);
      unfold getWithdrawalStatusV2, getWithdrawalStatusV3;
      (destruct (getWithdrawals _); [cbn; eauto|]);
      unfold_async; cbn; destruct_outcomes; cbn; eauto.
  - intros e Hv Hread. unfold getWithdrawalStatus. rewrite Hv.
    unfold run, bind, andThen, query. rewrite Hread. reflexivity.
Qed.

End WithCollaborators.
End GetWithdrawalStatusOrder.


(* --------------------------------------------------------------------- *)
(** ** The two-query resolver: table, classification and queries *)

Module Part000Classification.

Lemma includes_In messages m : includes messages m = true <-> In m messages.
Proof.
  unfold includes. rewrite existsb_exists. split.
  - intros (x & Hin & Heq). apply String.eqb_eq in Heq. now subst.
  - intro Hin. exists m. split; [exact Hin | apply String.eqb_refl].
Qed.

(** X8.  The switch and the table agree: [switchRevertMessage] classifies a
    message into a status exactly when the message is one of the nine of
    [finalizedWithdrawalMessages]; its "Unknown revert message" branch is
    taken by no message of the table. *)
Theorem switch_covers_exactly_the_table m :
  includes finalizedWithdrawalMessages m = true <->
  exists status, Part000.switchRevertMessage (Some m) = inr status.
Proof.
  split.
  - intros Hin%includes_In. cbn in Hin.
    repeat (destruct Hin as [<-|Hin]; [vm_compute; eauto|]).
    destruct Hin.
  - intros [status Hs]. unfold Part000.switchRevertMessage in Hs.
    apply includes_In.
    repeat match type of Hs with
           | context [String.eqb m ?c] =>
               destruct (String.eqb_spec m c);
                 [subst m; cbn; tauto | cbn [orb] in Hs]
           end.
    cbn in Hs. discriminate Hs.
Qed.

Section WithCollaborators.
Context `{Collaborators}.

Variable client : Client.
Variable parameters : GetWithdrawalStatusParameters.

(** X9.  Classification by revert data.  On a portal whose major version is
    not 2, when [checkWithdrawal] reverts with a message of the table as its
    first revert argument, the status is ready-to-prove for "withdrawal has
    not been proven yet", finalized for "withdrawal has already been
    finalized", and waiting-to-finalize for each of the seven others. *)
Theorem listed_revert_is_classified withdrawal rest version e m :
  getWithdrawals (receipt parameters) = withdrawal :: rest ->
  getPortalVersion client = inr version ->
  major version <> 2 ->
  checkWithdrawal client (hashWithdrawal withdrawal) = inl e ->
  causeIsRevert e = true ->
  causeArg0 e = Some m ->
  includes finalizedWithdrawalMessages m = true ->
  snd (run (Part000.getWithdrawalStatus client parameters)) =
  inr (if String.eqb m "OptimismPortal: withdrawal has not been proven yet"
       then ReadyToProve
       else if String.eqb m "OptimismPortal: withdrawal has already been finalized"
            then Finalized
            else WaitingToFinalize).
Proof.
  intros Hw Hv Hmajor%Z.eqb_neq Hcheck Hrev Harg Hin.
  unfold Part000.getWithdrawalStatus. rewrite Hw. unfold_async.
  rewrite Hv, Hcheck. cbn. rewrite Hmajor, Hrev, Harg. cbn [negb includesOptional].
  rewrite Hin. cbn [negb].
  apply includes_In in Hin. cbn in Hin.
  repeat (destruct Hin as [<-|Hin]; [reflexivity|]).
  destruct Hin.
Qed.

(** X10.  Queries of the two-query resolver.  For a receipt with a
    withdrawal the portal version is read first; if that read fails the call
    fails with its error and [checkWithdrawal] is never simulated; if it
    succeeds, the [checkWithdrawal] simulation is the second and last query,
    on a version 2 portal too. *)
Theorem version_then_check withdrawal rest :
  getWithdrawals (receipt parameters) = withdrawal :: rest ->
  (forall e,
     getPortalVersion client = inl e ->
     run (Part000.getWithdrawalStatus client parameters)
       = ([QPortalVersion], inl e)) /\
  (forall version,
     getPortalVersion client = inr version ->
     fst (run (Part000.getWithdrawalStatus client parameters))
       = [QPortalVersion; QCheckWithdrawal (hashWithdrawal withdrawal)]).
Proof.
  intro Hw. unfold Part000.getWithdrawalStatus. rewrite Hw. unfold_async.
  split.
  - intros e ->. reflexivity.
  - intros version ->. cbn. destruct_outcomes; reflexivity.
Qed.

(** X11.  Where a status comes from.  When the two-query resolver returns a
    status, the portal version was read with a major version other than 2,
    and either [checkWithdrawal] succeeded and the status is
    ready-to-finalize, or it reverted with a message of the table as its
    first revert argument and the status is the one the switch gives that
    message. *)
Theorem status_comes_from_check status :
  snd (run (Part000.getWithdrawalStatus client parameters)) = inr status ->
  exists withdrawal rest version,
    getWithdrawals (receipt parameters) = withdrawal :: rest /\
    getPortalVersion client = inr version /\
    major version <> 2 /\
    ((exists u, checkWithdrawal client (hashWithdrawal withdrawal) = inr u /\
                status = ReadyToFinalize) \/
     (exists e m,
        checkWithdrawal client (hashWithdrawal withdrawal) = inl e /\
        causeIsRevert e = true /\
        causeArg0 e = Some m /\
        includes finalizedWithdrawalMessages m = true /\
        Part000.switchRevertMessage (Some m) = inr status)).
Proof.
  intro Hres. unfold Part000.getWithdrawalStatus in Hres.
  destruct (getWithdrawals (receipt parameters)) as [|w rest] eqn:Hw;
    [discriminate Hres|].
  unfold_async.
  destruct (getPortalVersion client) as [e|v] eqn:Hv; [discriminate Hres|].
  cbn [fst snd app] in Hres.
  destruct (major v =? 2) eqn:Hmajor; [discriminate Hres|].
  apply Z.eqb_neq in Hmajor.
  exists w, rest, v. repeat (split; [first [reflexivity | assumption]|]).
  destruct (checkWithdrawal client (hashWithdrawal w)) as [e|u];
    cbn [fst snd] in Hres.
  - right.
    destruct (causeIsRevert e) eqn:Hrev; cbn [negb snd] in Hres;
      [|discriminate Hres].
    destruct (causeArg0 e) as [m|] eqn:Harg;
      cbn [includesOptional negb snd] in Hres; [|discriminate Hres].
    destruct (includes finalizedWithdrawalMessages m) eqn:Hin;
      cbn [negb snd] in Hres; [|discriminate Hres].
    destruct (Part000.switchRevertMessage (Some m)) as [e'|s] eqn:Hs;
      cbn [snd] in Hres; [discriminate Hres|].
    injection Hres as <-. exists e, m. auto.
  - left. injection Hres as <-. eauto.
Qed.

End WithCollaborators.
End Part000Classification.


(* --------------------------------------------------------------------- *)
(** ** The output waiter: what a tick resolves with, and what it asks *)

Module WaitForNextL2OutputScan.
Import WaitForNextL2Output.

Section WithCollaborators.
Context `{Collaborators}.

Variable parameters : WaitForNextL2OutputParameters.

Let atOrBelowTarget := decodesAtOrBelow (l2BlockNumber parameters).

Lemma scanGames_skips_prefix pre games st :
  (forall game, In game pre -> atOrBelowTarget game) ->
  scanGames (pre ++ games) parameters st = scanGames games parameters st.
Proof.
  induction pre as [|g pre IH]; intro Hall; [reflexivity|].
  cbn [app scanGames].
  destruct (Hall g (or_introl eq_refl)) as (bn & values & -> & Hle).
  replace (bn >? l2BlockNumber parameters) with false
    by (symmetry; rewrite Z.gtb_ltb; apply Z.ltb_ge; lia).
  apply IH. intros game Hin. apply Hall. now right.
Qed.

Lemma scanGames_resolution games st r :
  promise st = Pending ->
  promise (scanGames games parameters st) = Fulfilled r ->
  exists game blockNumber,
    r = GameResolution game blockNumber /\
    In game games /\
    (exists rest, decodeAbiParameters [uint256] (extraData game)
                  = inr (VUint blockNumber :: rest)) /\
    blockNumber > l2BlockNumber parameters.
Proof.
  revert st. induction games as [|g rest IH]; intros st Hp; cbn [scanGames].
  - congruence.
  - destruct (decodeAbiParameters _ (extraData g)) as [e|[|[bn|a|b] values]] eqn:Hd.
    + rewrite WaitForNextL2OutputFacts.promise_reject_unpoll, Hp. discriminate.
    + intro Hf. destruct (IH st Hp Hf) as (game & n & ? & ? & ? & ?).
      exists game, n. cbn; auto.
    + destruct (bn >? l2BlockNumber parameters) eqn:Hgt.
      * rewrite WaitForNextL2OutputFacts.scanGames_keeps_settled;
          rewrite WaitForNextL2OutputFacts.promise_resolve_unpoll, Hp;
          [|discriminate].
        intros [= <-]. exists g, bn. split; [reflexivity|].
        split; [now left|]. split; [eauto | lia].
      * intro Hf. destruct (IH st Hp Hf) as (game & n & ? & ? & ? & ?).
        exists game, n. cbn; auto.
    + intro Hf. destruct (IH st Hp Hf) as (game & n & ? & ? & ? & ?).
      exists game, n. cbn; auto.
    + intro Hf. destruct (IH st Hp Hf) as (game & n & ? & ? & ? & ?).
      exists game, n. cbn; auto.
Qed.

(** X12.  What a tick of the current path resolves with.  When such a tick
    fulfils a pending promise, the three dispute-game reads succeeded, and
    the value is a game of the fetched batch together with its decoded block
    number, which is strictly greater than the target. *)
Theorem current_tick_resolves_with_a_game_above_target client st r :
  promise st = Pending ->
  promise (tick false client parameters st) = Fulfilled r ->
  exists count gameType games game blockNumber,
    gameCount client = inr count /\
    respectedGameType client = inr gameType /\
    findLatestGames client gameType (Z.max 0 (count - 1)) (Z.min 100 count)
      = inr games /\
    In game games /\
    (exists rest, decodeAbiParameters [uint256] (extraData game)
                  = inr (VUint blockNumber :: rest)) /\
    blockNumber > l2BlockNumber parameters /\
    r = GameResolution game blockNumber.
Proof.
  intros Hp. unfold tick, currentBlock.
  destruct (gameCount client) as [e|count];
    [rewrite WaitForNextL2OutputFacts.promise_reject_unpoll; cbn;
     rewrite Hp; discriminate|].
  destruct (respectedGameType client) as [e|gameType];
    [rewrite WaitForNextL2OutputFacts.promise_reject_unpoll; cbn;
     rewrite Hp; discriminate|].
  destruct (findLatestGames client _ _ _) as [e|games] eqn:Hgames;
    [rewrite WaitForNextL2OutputFacts.promise_reject_unpoll; cbn;
     rewrite Hp; discriminate|].
  intro Hf. apply scanGames_resolution in Hf; [|exact Hp].
  destruct Hf as (game & bn & -> & Hin & Hdec & Hgt).
  exists count, gameType, games, game, bn. auto 10.
Qed.

(** The state after the reads of the current block have succeeded. *)
Lemma currentBlock_scans client st count gameType games :
  gameCount client = inr count ->
  respectedGameType client = inr gameType ->
  findLatestGames client gameType (Z.max 0 (count - 1)) (Z.min 100 count)
    = inr games ->
  currentBlock client parameters st =
  scanGames games parameters
    (issue (QFindLatestGames gameType (Z.max 0 (count - 1)) (Z.min 100 count))
       (issue QRespectedGameType (issue QGameCount st))).
Proof.
  intros Hcount Htype Hgames. unfold currentBlock.
  now rewrite Hcount, Htype, Hgames.
Qed.

(** X13.  The first match wins.  On the current path, when the batch reads
    succeed and the first game of the batch whose block number is above the
    target comes after games at or below it, a pending promise is fulfilled
    with that game and the loop is cancelled, whatever follows it in the
    batch -- later matches and undecodable games included. *)
Theorem first_game_above_target_wins
    client st count gameType pre game post blockNumber values :
  gameCount client = inr count ->
  respectedGameType client = inr gameType ->
  findLatestGames client gameType (Z.max 0 (count - 1)) (Z.min 100 count)
    = inr (pre ++ game :: post) ->
  (forall g, In g pre -> atOrBelowTarget g) ->
  decodeAbiParameters [uint256] (extraData game)
    = inr (VUint blockNumber :: values) ->
  blockNumber > l2BlockNumber parameters ->
  promise st = Pending ->
  promise (tick false client parameters st)
    = Fulfilled (GameResolution game blockNumber) /\
  active (tick false client parameters st) = false.
Proof.
  intros Hcount Htype Hgames Hpre Hdec Hgt Hp. unfold tick.
  rewrite (currentBlock_scans _ _ _ _ _ Hcount Htype Hgames).
  rewrite scanGames_skips_prefix by exact Hpre.
  cbn [scanGames]. rewrite Hdec.
  replace (blockNumber >? l2BlockNumber parameters) with true
    by (symmetry; apply Z.gtb_lt; lia).
  split.
  - rewrite WaitForNextL2OutputFacts.scanGames_keeps_settled;
      rewrite WaitForNextL2OutputFacts.promise_resolve_unpoll; cbn;
      rewrite Hp; [reflexivity | discriminate].
  - apply WaitForNextL2OutputFacts.scanGames_stays_cancelled.
    apply WaitForNextL2OutputFacts.active_resolve_unpoll.
Qed.

(** X14.  A game that cannot be decoded is fatal, not skipped.  On the
    current path, when the batch reads succeed and a game whose extra data
    fails to decode comes after games at or below the target, a pending
    promise is rejected with the decoding error and the loop is cancelled;
    the games after it are not examined, even if one is above the target. *)
Theorem undecodable_game_rejects
    client st count gameType pre game post e :
  gameCount client = inr count ->
  respectedGameType client = inr gameType ->
  findLatestGames client gameType (Z.max 0 (count - 1)) (Z.min 100 count)
    = inr (pre ++ game :: post) ->
  (forall g, In g pre -> atOrBelowTarget g) ->
  decodeAbiParameters [uint256] (extraData game) = inl e ->
  promise st = Pending ->
  promise (tick false client parameters st) = Rejected e /\
  active (tick false client parameters st) = false.
Proof.
  intros Hcount Htype Hgames Hpre Hdec Hp. unfold tick.
  rewrite (currentBlock_scans _ _ _ _ _ Hcount Htype Hgames).
  rewrite scanGames_skips_prefix by exact Hpre.
  cbn [scanGames]. rewrite Hdec.
  rewrite WaitForNextL2OutputFacts.promise_reject_unpoll,
    WaitForNextL2OutputFacts.active_reject_unpoll.
  cbn. rewrite Hp. auto.
Qed.

(** X15.  A failed dispute-game read is fatal.  On the current path, the
    first of the three reads that fails -- game count, respected game type,
    latest games -- rejects a pending promise with its error and cancels the
    loop, and the reads after it are not issued. *)
Theorem failed_game_read_rejects client st :
  promise st = Pending ->
  (forall e,
     gameCount client = inl e ->
     promise (tick false client parameters st) = Rejected e /\
     active (tick false client parameters st) = false /\
     issued (tick false client parameters st) = issued st ++ [QGameCount]) /\
  (forall count e,
     gameCount client = inr count ->
     respectedGameType client = inl e ->
     promise (tick false client parameters st) = Rejected e /\
     active (tick false client parameters st) = false /\
     issued (tick false client parameters st)
       = issued st ++ [QGameCount; QRespectedGameType]) /\
  (forall count gameType e,
     gameCount client = inr count ->
     respectedGameType client = inr gameType ->
     findLatestGames client gameType (Z.max 0 (count - 1)) (Z.min 100 count)
       = inl e ->
     promise (tick false client parameters st) = Rejected e /\
     active (tick false client parameters st) = false /\
     issued (tick false client parameters st)
       = issued st ++ [QGameCount; QRespectedGameType;
                       QFindLatestGames gameType (Z.max 0 (count - 1))
                         (Z.min 100 count)]).
Proof.
  intro Hp. unfold tick, currentBlock. split; [|split].
  - intros e ->. unfold reject, unpoll, issue. cbn. rewrite Hp. cbn. auto.
  - intros count e -> ->. unfold reject, unpoll, issue. cbn. rewrite Hp. cbn.
    rewrite <- app_assoc. auto.
  - intros count gameType e -> -> ->. unfold reject, unpoll, issue. cbn.
    rewrite Hp. cbn. rewrite <- !app_assoc. auto.
Qed.

(** X16.  On the legacy path a fetched output settles the call.  When the
    output fetch of a legacy tick succeeds, a pending promise is fulfilled
    with that output and the loop is cancelled, whatever the dispute-game
    reads of the same tick return. *)
Theorem legacy_output_wins client st output :
  getL2Output client (l2BlockNumber parameters) = inr output ->
  promise st = Pending ->
  promise (tick true client parameters st) = Fulfilled (OutputResolution output) /\
  active (tick true client parameters st) = false.
Proof.
  intros Hout Hp. unfold tick.
  assert (Hl : promise (legacyBlock client parameters st)
               = Fulfilled (OutputResolution output)).
  { unfold legacyBlock. rewrite Hout.
    rewrite WaitForNextL2OutputFacts.promise_resolve_unpoll. cbn.
    now rewrite Hp. }
  assert (Ha : active (legacyBlock client parameters st) = false).
  { unfold legacyBlock. rewrite Hout.
    apply WaitForNextL2OutputFacts.active_resolve_unpoll. }
  split.
  - rewrite WaitForNextL2OutputFacts.currentBlock_keeps_settled; congruence.
  - now apply WaitForNextL2OutputFacts.currentBlock_stays_cancelled.
Qed.

Lemma issued_resolve_unpoll v st : issued (resolve v (unpoll st)) = issued st.
Proof. unfold resolve, unpoll; cbn. destruct (promise st); reflexivity. Qed.

Lemma issued_reject_unpoll e st : issued (reject e (unpoll st)) = issued st.
Proof. unfold reject, unpoll; cbn. destruct (promise st); reflexivity. Qed.

Lemma issued_scanGames games st :
  issued (scanGames games parameters st) = issued st.
Proof.
  revert st. induction games as [|g rest IH]; intro st; [reflexivity|].
  cbn [scanGames].
  destruct (decodeAbiParameters _ _) as [e|[|[bn|a|b] values]]; auto.
  - apply issued_reject_unpoll.
  - destruct (bn >? _); auto. rewrite IH. apply issued_resolve_unpoll.
Qed.

(** The queries a current block adds. *)
Lemma issued_currentBlock client st :
  exists added,
    issued (currentBlock client parameters st) = issued st ++ added /\
    forall q, In q added ->
      q = QGameCount \/ q = QRespectedGameType \/
      exists gameType start count,
        q = QFindLatestGames gameType start count /\
        0 <= start /\ count <= 100.
Proof.
  unfold currentBlock.
  destruct (gameCount client) as [e|n].
  { exists [QGameCount]. rewrite issued_reject_unpoll. split; [reflexivity|].
    intros q [<-|[]]. auto. }
  destruct (respectedGameType client) as [e|t].
  { exists [QGameCount; QRespectedGameType]. rewrite issued_reject_unpoll. cbn.
    rewrite <- app_assoc. split; [reflexivity|].
    intros q [<-|[<-|[]]]; auto. }
  exists [QGameCount; QRespectedGameType;
          QFindLatestGames t (Z.max 0 (n - 1)) (Z.min 100 n)].
  split.
  - destruct (findLatestGames client _ _ _);
      [rewrite issued_reject_unpoll | rewrite issued_scanGames];
      cbn; now rewrite <- !app_assoc.
  - intros q [<-|[<-|[<-|[]]]]; auto.
    right; right. exists t, (Z.max 0 (n - 1)), (Z.min 100 n).
    split; [reflexivity | lia].
Qed.

(** X17.  What a tick asks.  Every query a tick adds is the game count, the
    respected game type, a request for the latest games -- for at most 100
    games, from a start index that is never negative -- or, on the legacy
    path only, the output fetch for the target block.  A tick never reads
    the portal version or the time to the next output again. *)
Theorem tick_queries isLegacy client st :
  exists added,
    issued (tick isLegacy client parameters st) = issued st ++ added /\
    forall q, In q added ->
      (isLegacy = true /\ q = QL2Output (l2BlockNumber parameters)) \/
      q = QGameCount \/ q = QRespectedGameType \/
      exists gameType start count,
        q = QFindLatestGames gameType start count /\
        0 <= start /\ count <= 100.
Proof.
  unfold tick. destruct isLegacy.
  - destruct (issued_currentBlock client (legacyBlock client parameters st))
      as (added & Hadd & Hq).
    exists (QL2Output (l2BlockNumber parameters) :: added). split.
    + rewrite Hadd. unfold legacyBlock.
      destruct (getL2Output client _) as [e|o];
        [destruct (negb (causeIsRevert e))|];
        rewrite ?issued_reject_unpoll, ?issued_resolve_unpoll; cbn;
        now rewrite <- app_assoc.
    + intros q [<-|Hin]; [auto|]. right. now apply Hq.
  - destruct (issued_currentBlock client st) as (added & Hadd & Hq).
    exists added. split; [exact Hadd|]. intros q Hin. right. now apply Hq.
Qed.

End WithCollaborators.
End WaitForNextL2OutputScan.



(* --------------------------------------------------------------------- *)
(** ** [BaseError]: what the constructor hands down the cause chain *)

Module BaseErrorClassFacts.
Import BaseErrorClass.

Lemma construct_is_BaseError version shortMessage args :
  isBaseError (construct version shortMessage args) = true.
Proof. reflexivity. Qed.

Lemma details_wrap_BaseError version base layers :
  isBaseError base = true ->
  errorDetails (wrapAll version base layers) = errorDetails base.
Proof.
  revert base. induction layers as [|[shortMessage args] outer IH];
    intros base Hbase; [reflexivity|].
  cbn [wrapAll]. rewrite IH by apply construct_is_BaseError.
  destruct base; [discriminate | reflexivity].
Qed.

(** X18.  Details travel outwards unchanged.  However many times an error is
    wrapped in a new [BaseError] with it as the cause, the outermost
    [details] is the message of the wrapped error when that is a plain
    [Error] with a non-empty message, and the [details] of the wrapped error
    when that is a [BaseError]; the [details] arguments of the wrapping
    layers are ignored. *)
Theorem details_come_from_the_innermost_error version layers :
  (forall message shortMessage args,
     message <> "" ->
     errorDetails (wrapAll version (NativeError message)
                     ((shortMessage, args) :: layers))
       = Some message) /\
  (forall base,
     isBaseError base = true ->
     errorDetails (wrapAll version base layers) = errorDetails base).
Proof.
  split.
  - intros message shortMessage args Hne. cbn [wrapAll].
    rewrite details_wrap_BaseError by apply construct_is_BaseError.
    cbn. destruct (String.eqb_spec message ""); [contradiction | reflexivity].
  - intros base Hbase. now apply details_wrap_BaseError.
Qed.

(** X20.  The innermost documentation path wins.  When a [BaseError] with a
    non-empty [docsPath] is wrapped, however many times, in new [BaseError]s
    with it as the cause, the outermost [docsPath] is that of the wrapped
    error, whatever [docsPath] the wrapping layers were given. *)
Theorem docsPath_of_the_cause_wins version base layers :
  isBaseError base = true ->
  truthy (errorDocsPath base) = true ->
  errorDocsPath (wrapAll version base layers) = errorDocsPath base.
Proof.
  revert base. induction layers as [|[shortMessage args] outer IH];
    intros base Hbase Hpath; [reflexivity|].
  cbn [wrapAll].
  assert (Hstep : errorDocsPath (construct version shortMessage (withCause args base))
                  = errorDocsPath base).
  { destruct base; [discriminate|]. cbn in *. now rewrite Hpath. }
  rewrite IH; [exact Hstep | apply construct_is_BaseError | now rewrite Hstep].
Qed.

(** *** The message of a [BaseError] spans several lines *)

Lemma occursIn_append c s1 s2 :
  occursIn c (s1 ++ s2) = occursIn c s1 || occursIn c s2.
Proof.
  induction s1 as [|a s1 IH]; [reflexivity|].
  cbn [append occursIn]. rewrite IH. apply orb_assoc.
Qed.

Lemma concat_two_lines_has_newline x y rest :
  occursIn (Ascii.ascii_of_nat 10) (String.concat newline (x :: y :: rest)) = true.
Proof.
  cbn [String.concat]. rewrite !occursIn_append.
  cbn. now rewrite orb_true_r.
Qed.

Lemma message_has_newline version shortMessage args :
  occursIn (Ascii.ascii_of_nat 10)
    (errorMessage (construct version shortMessage args)) = true.
Proof.
  cbn [construct errorMessage]. unfold messageLines.
  cbn [app]. apply concat_two_lines_has_newline.
Qed.

Lemma known_messages_are_one_line m :
  includes finalizedWithdrawalMessages m = true ->
  occursIn (Ascii.ascii_of_nat 10) m = false.
Proof.
  intros Hin%Part000Classification.includes_In. cbn in Hin.
  repeat (destruct Hin as [<-|Hin]; [vm_compute; reflexivity|]).
  destruct Hin.
Qed.

Lemma message_is_not_listed version shortMessage args :
  includes finalizedWithdrawalMessages
    (errorMessage (construct version shortMessage args)) = false.
Proof.
  destruct (includes _ _) eqn:Hin; [|reflexivity].
  apply known_messages_are_one_line in Hin.
  now rewrite message_has_newline in Hin.
Qed.

Section WithCollaborators.
Context `{Collaborators}.
Import GetWithdrawalStatus.

(** X19.  The message of a [BaseError] is never a known message.  The
    constructor joins at least three lines, so no [BaseError] has one of the
    nine one-line messages of the table as its message.  Hence, on the V3
    path with the output, proven and finalized reads fetched, a
    [checkWithdrawal] failure whose cause carries the message of a
    [BaseError] makes the call fail with that failure. *)
Theorem BaseError_message_is_never_listed
    version shortMessage args client parameters
    withdrawal rest output proven finalized name cause :
  includes finalizedWithdrawalMessages
    (errorMessage (construct version shortMessage args)) = false /\
  (getWithdrawals (receipt parameters) = withdrawal :: rest ->
   getL2Output client (blockNumber (receipt parameters)) = inr output ->
   provenWithdrawals client portal2Abi (withdrawalHash withdrawal) = inr proven ->
   finalizedWithdrawals client portal2Abi (withdrawalHash withdrawal)
     = inr finalized ->
   checkWithdrawal client (hashWithdrawal withdrawal)
     = inl (ActionError name (Some cause)) ->
   causeMessage cause = errorMessage (construct version shortMessage args) ->
   snd (run (getWithdrawalStatusV3 client parameters))
     = inl (ActionError name (Some cause))).
Proof.
  split; [apply message_is_not_listed|].
  intros Hw Hout Hprove Hfin Hcheck Hmsg.
  unfold getWithdrawalStatusV3. rewrite Hw. unfold_async.
  rewrite Hout, Hprove, Hfin, Hcheck. destruct proven as [root ts].
  cbn [fst snd]. unfold checkWithdrawalCatch.
  cbn [errorName errorCause]. rewrite Hmsg, message_is_not_listed.
  destruct (String.eqb name "ContractFunctionExecutionError"); reflexivity.
Qed.

End WithCollaborators.
End BaseErrorClassFacts.


(* --------------------------------------------------------------------- *)
(** ** [walk]: walking twice *)

Module BaseErrorWalkAgain.
Import BaseError.

Lemma walk_fixed_on_match err f :
  f err = true -> walk err (Some f) = err.
Proof. intro Hf. destruct err; cbn; now rewrite Hf. Qed.

Lemma walk_predicate_result err f :
  walk err (Some f) = null \/ f (walk err (Some f)) = true.
Proof.
  induction err as [p | l | l c IH]; cbn [walk callOptional].
  - destruct (f (Prim p)) eqn:Hf; auto.
  - destruct (f (Obj l)) eqn:Hf; auto.
  - destruct (f (ObjWithCause l c)) eqn:Hf; auto.
Qed.

(** X21.  Walking is idempotent.  Walking the result of [walk] again, with
    the same predicate or again with none, returns that result: without a
    predicate the innermost value is its own innermost value, and with a
    predicate the value found, or [null], is found again. *)
Theorem walk_idempotent err fn :
  walk (walk err fn) fn = walk err fn.
Proof.
  destruct fn as [f|].
  - destruct (walk_predicate_result err f) as [-> | Hf].
    + cbn. destruct (f (Prim JsNull)); reflexivity.
    + now apply walk_fixed_on_match.
  - induction err as [p | l | l c IH]; cbn; auto.
Qed.

End BaseErrorWalkAgain.



(* --------------------------------------------------------------------- *)
(** ** The properties above, on concrete chains *)

Module OnConcreteChains.
Import Examples MoreExamples.

(** X1 on a chain where every read succeeds. *)
Lemma paths_issue_all_four_queries_witness :
  @getWithdrawals collaborators receiptWithWithdrawal = [theWithdrawal] /\
  fst (run (@GetWithdrawalStatus.getWithdrawalStatusV3 collaborators
              goodChain (withVersion (Some 3))))
    = [QL2Output 100;
       QProvenWithdrawals portal2Abi [Byte.x01];
       QFinalizedWithdrawals portal2Abi [Byte.x01];
       QCheckWithdrawal (@hashWithdrawal collaborators theWithdrawal)] /\
  fst (run (@GetWithdrawalStatus.getWithdrawalStatusV2 collaborators
              goodChain (withVersion (Some 3))))
    = [QL2Output 100;
       QProvenWithdrawals portalAbi [Byte.x01];
       QFinalizedWithdrawals portalAbi [Byte.x01];
       QTimeToFinalize [Byte.x01]].
Proof.
  split; [reflexivity|].
  exact (@GetWithdrawalStatusOrder.paths_issue_all_four_queries collaborators
           goodChain (withVersion (Some 3)) theWithdrawal [] eq_refl).
Defined.

(** X2 on a chain whose output fetch fails in transport. *)
Lemma first_failed_read_is_thrown_witness :
  @getWithdrawals collaborators receiptWithWithdrawal = [theWithdrawal] /\
  outputNotProposed transportError = false /\
  snd (run (@GetWithdrawalStatus.getWithdrawalStatusV3 collaborators
              (chain 3 (inl transportError) (inr tt) [])
              (withVersion (Some 3))))
    = inl transportError /\
  snd (run (@GetWithdrawalStatus.getWithdrawalStatusV2 collaborators
              (chain 3 (inl transportError) (inr tt) [])
              (withVersion (Some 3))))
    = inl transportError.
Proof.
  split; [reflexivity|]. split; [reflexivity|].
  exact (proj1 (@GetWithdrawalStatusOrder.first_failed_read_is_thrown
                  collaborators (chain 3 (inl transportError) (inr tt) [])
                  (withVersion (Some 3)) theWithdrawal [] eq_refl)
           transportError eq_refl eq_refl).
Defined.

(** X3 on a chain whose withdrawal is not proven, with the finalized flag
    set all the same. *)
Lemma zero_timestamp_is_ready_to_prove_witness :
  @getWithdrawals collaborators receiptWithWithdrawal = [theWithdrawal] /\
  snd (run (@GetWithdrawalStatus.getWithdrawalStatusV3 collaborators
              (chainWith (inr ([], 0)) (inr true) (inr 0) (inr tt))
              (withVersion (Some 3))))
    = inr ReadyToProve /\
  snd (run (@GetWithdrawalStatus.getWithdrawalStatusV2 collaborators
              (chainWith (inr ([], 0)) (inr true) (inr 0) (inr tt))
              (withVersion (Some 2))))
    = inr ReadyToProve.
Proof.
  split; [reflexivity|]. split.
  - exact (proj1 (@GetWithdrawalStatusOrder.zero_timestamp_is_ready_to_prove
                    collaborators
                    (chainWith (inr ([], 0)) (inr true) (inr 0) (inr tt))
                    (withVersion (Some 3)) theWithdrawal [] someOutput []
                    eq_refl eq_refl)
             true eq_refl eq_refl eq_refl).
  - exact (proj2 (@GetWithdrawalStatusOrder.zero_timestamp_is_ready_to_prove
                    collaborators
                    (chainWith (inr ([], 0)) (inr true) (inr 0) (inr tt))
                    (withVersion (Some 2)) theWithdrawal [] someOutput []
                    eq_refl eq_refl)
             true 0 eq_refl eq_refl eq_refl).
Defined.


(** X5 on a chain with five seconds left. *)
Lemma V2_waits_while_seconds_remain_witness :
  (1 <> 0) /\
  (snd (run (@GetWithdrawalStatus.getWithdrawalStatusV2 collaborators
               (chainWith (inr ([], 1)) (inr false) (inr 5) (inr tt))
               (withVersion (Some 2))))
     = inr WaitingToFinalize <-> 0 < 5).
Proof.
  assert (Hts : 1 <> 0) by discriminate.
  split; [exact Hts|].
  exact (proj1 (@GetWithdrawalStatusOrder.V2_waits_while_seconds_remain
                  collaborators
                  (chainWith (inr ([], 1)) (inr false) (inr 5) (inr tt))
                  (withVersion (Some 2)) theWithdrawal [] someOutput [] 1 5
                  eq_refl eq_refl eq_refl Hts eq_refl eq_refl)).
Defined.

(** X7 on a chain whose portal version cannot be read. *)
Lemma portal_version_read_only_when_missing_witness :
  run (@GetWithdrawalStatus.getWithdrawalStatus collaborators
         chainWithoutVersion (withVersion None))
    = ([QPortalVersion], inl transportError).
Proof.
  exact (proj2 (proj2 (@GetWithdrawalStatusOrder.portal_version_read_only_when_missing
                         collaborators chainWithoutVersion (withVersion None)))
           transportError eq_refl eq_refl).
Defined.

(** X9 on a chain whose withdrawal has not matured. *)
Lemma listed_revert_is_classified_witness :
  (3 <> 2) /\
  includes finalizedWithdrawalMessages
    "OptimismPortal: proven withdrawal has not matured yet" = true /\
  snd (run (@Part000.getWithdrawalStatus collaborators
              (chain 3 (inr someOutput)
                 (inl (revertedWith
                         "OptimismPortal: proven withdrawal has not matured yet"))
                 [])
              (withVersion None)))
    = inr WaitingToFinalize.
Proof.
  assert (Hv : 3 <> 2) by discriminate.
  split; [exact Hv|]. split; [reflexivity|].
  exact (@Part000Classification.listed_revert_is_classified collaborators
           (chain 3 (inr someOutput)
              (inl (revertedWith
                      "OptimismPortal: proven withdrawal has not matured yet"))
              [])
           (withVersion None) theWithdrawal []
           {| major := 3; minor := 0; patch := 0 |}
           (revertedWith "OptimismPortal: proven withdrawal has not matured yet")
           "OptimismPortal: proven withdrawal has not matured yet"
           eq_refl eq_refl Hv eq_refl eq_refl eq_refl eq_refl).
Defined.

(** X10 on a chain whose portal version cannot be read. *)
Lemma version_then_check_witness :
  @getWithdrawals collaborators receiptWithWithdrawal = [theWithdrawal] /\
  run (@Part000.getWithdrawalStatus collaborators
         chainWithoutVersion (withVersion None))
    = ([QPortalVersion], inl transportError).
Proof.
  split; [reflexivity|].
  exact (proj1 (@Part000Classification.version_then_check collaborators
                  chainWithoutVersion (withVersion None) theWithdrawal []
                  eq_refl)
           transportError eq_refl).
Defined.

(** X11 on a chain where [checkWithdrawal] succeeds. *)
Lemma status_comes_from_check_witness :
  snd (run (@Part000.getWithdrawalStatus collaborators
              goodChain (withVersion None)))
    = inr ReadyToFinalize /\
  exists withdrawal rest version,
    @getWithdrawals collaborators receiptWithWithdrawal = withdrawal :: rest /\
    getPortalVersion goodChain = inr version /\
    major version <> 2 /\
    ((exists u, checkWithdrawal goodChain
                  (@hashWithdrawal collaborators withdrawal) = inr u /\
                ReadyToFinalize = ReadyToFinalize) \/
     (exists e m,
        checkWithdrawal goodChain (@hashWithdrawal collaborators withdrawal)
          = inl e /\
        causeIsRevert e = true /\
        causeArg0 e = Some m /\
        includes finalizedWithdrawalMessages m = true /\
        @Part000.switchRevertMessage (Some m) = inr ReadyToFinalize)).
Proof.
  split; [reflexivity|].
  exact (@Part000Classification.status_comes_from_check collaborators
           goodChain (withVersion None) ReadyToFinalize eq_refl).
Defined.

(** A batch with a game below the target, one above it, and one higher
    still. *)
Lemma game119_at_or_below_120 g :
  In g [gameAt 119] -> @decodesAtOrBelow collaborators 120 g.
Proof.
  intros [<-|[]]. exists 119, []. split; [vm_compute; reflexivity|].
  cbn. lia.
Qed.

(** X12 on a batch with one game above the target. *)
Lemma current_tick_resolves_with_a_game_above_target_witness :
  WaitForNextL2Output.promise
    (@WaitForNextL2Output.tick collaborators false
       (chain 3 (inr someOutput) (inr tt) [gameAt 119; gameAt 121])
       {| WaitForNextL2Output.l2BlockNumber := 120 |}
       (WaitForNextL2Output.initialState []))
    = WaitForNextL2Output.Fulfilled
        (WaitForNextL2Output.GameResolution (gameAt 121) 121) /\
  exists count gameType games game blockNumber,
    gameCount (chain 3 (inr someOutput) (inr tt) [gameAt 119; gameAt 121])
      = inr count /\
    respectedGameType (chain 3 (inr someOutput) (inr tt) [gameAt 119; gameAt 121])
      = inr gameType /\
    findLatestGames (chain 3 (inr someOutput) (inr tt) [gameAt 119; gameAt 121])
      gameType (Z.max 0 (count - 1)) (Z.min 100 count) = inr games /\
    In game games /\
    (exists rest, @decodeAbiParameters collaborators [uint256] (extraData game)
                  = inr (VUint blockNumber :: rest)) /\
    blockNumber > 120 /\
    WaitForNextL2Output.GameResolution (gameAt 121) 121
      = WaitForNextL2Output.GameResolution game blockNumber.
Proof.
  assert (Hf : WaitForNextL2Output.promise
                 (@WaitForNextL2Output.tick collaborators false
                    (chain 3 (inr someOutput) (inr tt) [gameAt 119; gameAt 121])
                    {| WaitForNextL2Output.l2BlockNumber := 120 |}
                    (WaitForNextL2Output.initialState []))
               = WaitForNextL2Output.Fulfilled
                   (WaitForNextL2Output.GameResolution (gameAt 121) 121))
    by (vm_compute; reflexivity).
  split; [exact Hf|].
  exact (@WaitForNextL2OutputScan.current_tick_resolves_with_a_game_above_target
           collaborators {| WaitForNextL2Output.l2BlockNumber := 120 |}
           (chain 3 (inr someOutput) (inr tt) [gameAt 119; gameAt 121])
           (WaitForNextL2Output.initialState []) _ eq_refl Hf).
Defined.

(** X13 on a batch with two games above the target and an undecodable game
    after them. *)
Lemma first_game_above_target_wins_witness :
  @decodeAbiParameters collaborators [uint256] (extraData (gameAt 121))
    = inr [VUint 121] /\
  121 > 120 /\
  WaitForNextL2Output.promise
    (@WaitForNextL2Output.tick collaborators false
       (chain 3 (inr someOutput) (inr tt)
          [gameAt 119; gameAt 121; gameAt 125; brokenGame])
       {| WaitForNextL2Output.l2BlockNumber := 120 |}
       (WaitForNextL2Output.initialState []))
    = WaitForNextL2Output.Fulfilled
        (WaitForNextL2Output.GameResolution (gameAt 121) 121) /\
  WaitForNextL2Output.active
    (@WaitForNextL2Output.tick collaborators false
       (chain 3 (inr someOutput) (inr tt)
          [gameAt 119; gameAt 121; gameAt 125; brokenGame])
       {| WaitForNextL2Output.l2BlockNumber := 120 |}
       (WaitForNextL2Output.initialState []))
    = false.
Proof.
  assert (Hd : @decodeAbiParameters collaborators [uint256]
                 (extraData (gameAt 121)) = inr [VUint 121])
    by (vm_compute; reflexivity).
  assert (Hgt : 121 > 120) by reflexivity.
  split; [exact Hd|]. split; [exact Hgt|].
  exact (@WaitForNextL2OutputScan.first_game_above_target_wins
           collaborators {| WaitForNextL2Output.l2BlockNumber := 120 |}
           (chain 3 (inr someOutput) (inr tt)
              [gameAt 119; gameAt 121; gameAt 125; brokenGame])
           (WaitForNextL2Output.initialState []) 4 0
           [gameAt 119] (gameAt 121) [gameAt 125; brokenGame] 121 []
           eq_refl eq_refl eq_refl game119_at_or_below_120 Hd Hgt eq_refl).
Defined.

(** X14 on a batch whose undecodable game comes before a game above the
    target. *)
Lemma undecodable_game_rejects_witness :
  @decodeAbiParameters collaborators [uint256] (extraData brokenGame)
    = inl (ActionError "AbiDecodingDataSizeTooSmallError" None) /\
  WaitForNextL2Output.promise
    (@WaitForNextL2Output.tick collaborators false
       (chain 3 (inr someOutput) (inr tt) [gameAt 119; brokenGame; gameAt 121])
       {| WaitForNextL2Output.l2BlockNumber := 120 |}
       (WaitForNextL2Output.initialState []))
    = WaitForNextL2Output.Rejected
        (ActionError "AbiDecodingDataSizeTooSmallError" None) /\
  WaitForNextL2Output.active
    (@WaitForNextL2Output.tick collaborators false
       (chain 3 (inr someOutput) (inr tt) [gameAt 119; brokenGame; gameAt 121])
       {| WaitForNextL2Output.l2BlockNumber := 120 |}
       (WaitForNextL2Output.initialState []))
    = false.
Proof.
  split; [reflexivity|].
  exact (@WaitForNextL2OutputScan.undecodable_game_rejects
           collaborators {| WaitForNextL2Output.l2BlockNumber := 120 |}
           (chain 3 (inr someOutput) (inr tt) [gameAt 119; brokenGame; gameAt 121])
           (WaitForNextL2Output.initialState []) 3 0
           [gameAt 119] brokenGame [gameAt 121]
           (ActionError "AbiDecodingDataSizeTooSmallError" None)
           eq_refl eq_refl eq_refl game119_at_or_below_120 eq_refl eq_refl).
Defined.

(** X15 on a chain whose game count cannot be read. *)
Lemma failed_game_read_rejects_witness :
  WaitForNextL2Output.promise
    (@WaitForNextL2Output.tick collaborators false
       (chainWithoutGames transportError)
       {| WaitForNextL2Output.l2BlockNumber := 120 |}
       (WaitForNextL2Output.initialState [QPortalVersion]))
    = WaitForNextL2Output.Rejected transportError /\
  WaitForNextL2Output.active
    (@WaitForNextL2Output.tick collaborators false
       (chainWithoutGames transportError)
       {| WaitForNextL2Output.l2BlockNumber := 120 |}
       (WaitForNextL2Output.initialState [QPortalVersion]))
    = false /\
  WaitForNextL2Output.issued
    (@WaitForNextL2Output.tick collaborators false
       (chainWithoutGames transportError)
       {| WaitForNextL2Output.l2BlockNumber := 120 |}
       (WaitForNextL2Output.initialState [QPortalVersion]))
    = [QPortalVersion; QGameCount].
Proof.
  exact (proj1 (@WaitForNextL2OutputScan.failed_game_read_rejects
                  collaborators {| WaitForNextL2Output.l2BlockNumber := 120 |}
                  (chainWithoutGames transportError)
                  (WaitForNextL2Output.initialState [QPortalVersion]) eq_refl)
           transportError eq_refl).
Defined.

(** X16 on a legacy chain whose dispute-game batch holds a match as well. *)
Lemma legacy_output_wins_witness :
  WaitForNextL2Output.promise
    (@WaitForNextL2Output.tick collaborators true
       (chain 2 (inr someOutput) (inr tt) [gameAt 121])
       {| WaitForNextL2Output.l2BlockNumber := 120 |}
       (WaitForNextL2Output.initialState []))
    = WaitForNextL2Output.Fulfilled
        (WaitForNextL2Output.OutputResolution someOutput) /\
  WaitForNextL2Output.active
    (@WaitForNextL2Output.tick collaborators true
       (chain 2 (inr someOutput) (inr tt) [gameAt 121])
       {| WaitForNextL2Output.l2BlockNumber := 120 |}
       (WaitForNextL2Output.initialState []))
    = false.
Proof.
  exact (@WaitForNextL2OutputScan.legacy_output_wins
           collaborators {| WaitForNextL2Output.l2BlockNumber := 120 |}
           (chain 2 (inr someOutput) (inr tt) [gameAt 121])
           (WaitForNextL2Output.initialState []) someOutput eq_refl eq_refl).
Defined.

(** X18 on a plain error wrapped twice. *)
Lemma details_come_from_the_innermost_error_witness :
  "connection reset" <> "" /\
  BaseErrorClass.errorDetails
    (BaseErrorClass.wrapAll "2.0.0" (BaseErrorClass.NativeError "connection reset")
       [("RPC request failed.", withDocsPath "/docs/rpc");
        ("Contract read failed.", withDocsPath "/docs/contract")])
    = Some "connection reset".
Proof.
  assert (Hne : "connection reset" <> "") by discriminate.
  split; [exact Hne|].
  exact (proj1 (BaseErrorClassFacts.details_come_from_the_innermost_error
                  "2.0.0" [("Contract read failed.", withDocsPath "/docs/contract")])
           "connection reset" "RPC request failed." (withDocsPath "/docs/rpc") Hne).
Defined.

(** X19 on a chain whose [checkWithdrawal] fails with a [BaseError] built
    around a message of the table. *)
Lemma BaseError_message_is_never_listed_witness :
  includes finalizedWithdrawalMessages
    "OptimismPortal: proven withdrawal has not matured yet" = true /\
  snd (run (@GetWithdrawalStatus.getWithdrawalStatusV3 collaborators
              (chain 3 (inr someOutput)
                 (inl (ActionError "ContractFunctionExecutionError"
                         (Some {| causeMessage :=
                                    BaseErrorClass.errorMessage revertError;
                                  isContractFunctionRevertedError := true;
                                  revertArg0 :=
                                    Some "OptimismPortal: proven withdrawal has not matured yet" |})))
                 [])
              (withVersion (Some 3))))
    = inl (ActionError "ContractFunctionExecutionError"
             (Some {| causeMessage := BaseErrorClass.errorMessage revertError;
                      isContractFunctionRevertedError := true;
                      revertArg0 :=
                        Some "OptimismPortal: proven withdrawal has not matured yet" |})).
Proof.
  split; [reflexivity|].
  exact (proj2 (@BaseErrorClassFacts.BaseError_message_is_never_listed
                  collaborators "2.0.0"
                  "OptimismPortal: proven withdrawal has not matured yet"
                  noArguments
                  (chain 3 (inr someOutput)
                     (inl (ActionError "ContractFunctionExecutionError"
                             (Some {| causeMessage :=
                                        BaseErrorClass.errorMessage revertError;
                                      isContractFunctionRevertedError := true;
                                      revertArg0 :=
                                        Some "OptimismPortal: proven withdrawal has not matured yet" |})))
                     [])
                  (withVersion (Some 3)) theWithdrawal [] someOutput ([], 1) false
                  "ContractFunctionExecutionError" _)
           eq_refl eq_refl eq_refl eq_refl eq_refl eq_refl).
Defined.

(** X20 on an error with a documentation path, wrapped with another one. *)
Lemma docsPath_of_the_cause_wins_witness :
  BaseErrorClass.truthy
    (BaseErrorClass.errorDocsPath
       (BaseErrorClass.construct "2.0.0" "inner" (withDocsPath "/docs/inner")))
    = true /\
  BaseErrorClass.errorDocsPath
    (BaseErrorClass.wrapAll "2.0.0"
       (BaseErrorClass.construct "2.0.0" "inner" (withDocsPath "/docs/inner"))
       [("outer", withDocsPath "/docs/outer")])
    = Some "/docs/inner".
Proof.
  split; [reflexivity|].
  exact (BaseErrorClassFacts.docsPath_of_the_cause_wins "2.0.0"
           (BaseErrorClass.construct "2.0.0" "inner" (withDocsPath "/docs/inner"))
           [("outer", withDocsPath "/docs/outer")] eq_refl eq_refl).
Defined.

End OnConcreteChains.
